(** * qa_quiz_agent.py: a shallow embedding and its verified properties

    The program is one Streamlit script, re-executed from its first line on
    every user interaction.  What survives between two runs is the session
    store ([st.session_state]) and the history file [quiz_log.json].  The
    script is embedded as a computation in a state-and-exception monad over
    those two, with the outside world (credentials, the trivia service, the
    chat-completion service, the widgets' values) given as an [environment].*)

From Stdlib Require Import ZArith List String Ascii Bool Lia QArith.
From Stdlib Require Import Floats.SpecFloat.
Import ListNotations.
Local Open Scope string_scope.
Local Open Scope list_scope.
Local Open Scope Z_scope.

(** ** Python values *)

(** Binary64 parameters of Python's [float]. *)
Definition prec : Z := 53.
Definition emax : Z := 1024.

(** The values [json.load] and [response.json()] produce: [None], [bool],
    [int], [float], [str], [list] and [dict] with string keys.  A dict is kept
    as its items in insertion order, each key once. *)
#[warnings="-register-all"]
Inductive json : Type :=
| JNull
| JBool (b : bool)
| JInt (n : Z)
| JFloat (f : spec_float)
| JStr (s : string)
| JArr (items : list json)
| JObj (fields : list (string * json)).

(** The exceptions the script can run into. *)
Inductive exn : Type :=
| KeyError (key : string)
| TypeError
| IndexError
| AttributeError
| ZeroDivisionError
| OverflowError
| JSONDecodeError
| ExternalError (what : string).

(** What an expression evaluates to: a value or an exception. *)
Inductive result (A : Type) : Type :=
| Ok (a : A)
| Error (e : exn).

Arguments Ok {A} a.
Arguments Error {A} e.

(** How a piece of the script ends: normally, by an exception, or by one of
    Streamlit's two control-flow calls. *)
Inductive outcome (A : Type) : Type :=
| Return (a : A)
| Raise (e : exn)
| Stopped
| Rerun.

Arguments Return {A} a.
Arguments Raise {A} e.
Arguments Stopped {A}.
Arguments Rerun {A}.

Module Py.

(** [d[key]] on dict items. *)
Fixpoint lookup (key : string) (d : list (string * json)) : option json :=
  match d with
  | [] => None
  | (k, v) :: d' => if String.eqb k key then Some v else lookup key d'
  end.

(** [v[key]] for a string [key]: only a dict can be subscripted by one. *)
Definition getitem (v : json) (key : string) : result json :=
  match v with
  | JObj d => match lookup key d with
              | Some x => Ok x
              | None => Error (KeyError key)
              end
  | _ => Error TypeError
  end.

Fixpoint chars (s : string) : list json :=
  match s with
  | EmptyString => []
  | String c s' => JStr (String c EmptyString) :: chars s'
  end.

(** What [for item in v] ranges over: the elements of a list, the
    characters of a string, the keys of a dict; anything else is not
    iterable. *)
Definition iter (v : json) : result (list json) :=
  match v with
  | JArr l => Ok l
  | JStr s => Ok (chars s)
  | JObj d => Ok (map (fun kv => JStr (fst kv)) d)
  | _ => Error TypeError
  end.

(** [v + [x]]: list concatenation; every other left operand among the JSON
    values rejects a list as right operand. *)
Definition add_list (v : json) (l : list json) : result (list json) :=
  match v with
  | JArr l0 => Ok (l0 ++ l)
  | _ => Error TypeError
  end.

(** [l[i]] on a list, with Python's negative indices. *)
Definition index {A : Type} (l : list A) (i : Z) : result A :=
  let n := Z.of_nat (List.length l) in
  let j := if i <? 0 then i + n else i in
  if (0 <=? j) && (j <? n)
  then match nth_error l (Z.to_nat j) with
       | Some x => Ok x
       | None => Error IndexError
       end
  else Error IndexError.

(** The exact value of an [int] against a [float], as [==] compares them. *)
Definition int_eqb_float (n : Z) (f : spec_float) : bool :=
  match f with
  | S754_zero _ => n =? 0
  | S754_finite s m e =>
      let v := if s then Z.neg m else Z.pos m in
      if 0 <=? e then n =? v * 2 ^ e else n * 2 ^ (- e) =? v
  | _ => false
  end.

Definition bool_int (b : bool) : Z := if b then 1 else 0.

(** [a == b] on JSON values: numbers (with [bool] a subtype of [int])
    compare by value, strings and lists structurally, dicts as maps. *)
Fixpoint eqb (a b : json) {struct a} : bool :=
  match a, b with
  | JNull, JNull => true
  | JBool x, JBool y => Bool.eqb x y
  | JBool x, JInt n => bool_int x =? n
  | JInt n, JBool x => n =? bool_int x
  | JBool x, JFloat f => int_eqb_float (bool_int x) f
  | JFloat f, JBool x => int_eqb_float (bool_int x) f
  | JInt m, JInt n => m =? n
  | JInt n, JFloat f => int_eqb_float n f
  | JFloat f, JInt n => int_eqb_float n f
  | JFloat f, JFloat g => SFeqb f g
  | JStr s, JStr t => String.eqb s t
  | JArr l, JArr l' =>
      (fix all2 (l : list json) (l' : list json) {struct l} : bool :=
         match l, l' with
         | [], [] => true
         | x :: r, y :: r' => eqb x y && all2 r r'
         | _, _ => false
         end) l l'
  | JObj d, JObj d' =>
      (List.length d =? List.length d')%nat &&
      (fix all (d : list (string * json)) {struct d} : bool :=
         match d with
         | [] => true
         | (k, v) :: r =>
             match lookup k d' with
             | Some v' => eqb v v' && all r
             | None => false
             end
         end) d
  | _, _ => false
  end.

(** Truth value of a JSON value, as [if v], [not v] and [a or b] test it. *)
Definition truthy (v : json) : bool :=
  match v with
  | JNull => false
  | JBool b => b
  | JInt n => negb (n =? 0)
  | JFloat (S754_zero _) => false
  | JFloat _ => true
  | JStr s => negb (String.eqb s "")
  | JArr l => negb (List.length l =? 0)%nat
  | JObj d => negb (List.length d =? 0)%nat
  end.

(** [a or b]. *)
Definition or_ (a b : json) : json :=
  if truthy a then a else b.

(** [int] to [float], exact for the small constants the script uses. *)
Definition float_of_int (n : Z) : spec_float :=
  binary_normalize prec emax n 0 false.

(** [a / b] on two [int]s: the quotient rounded once to the nearest
    [float]; a zero divisor and a quotient beyond the largest [float]
    raise. *)
Definition true_div (a b : Z) : result spec_float :=
  match a, b with
  | _, Z0 => Error ZeroDivisionError
  | Z0, Zpos _ => Ok (S754_zero false)
  | Z0, Zneg _ => Ok (S754_zero true)
  | Zpos p, Zpos q => 
      match SFdiv prec emax (S754_finite false p 0) (S754_finite false q 0) with
      | S754_infinity _ => Error OverflowError
      | f => Ok f
      end
  | Zpos p, Zneg q => 
      match SFdiv prec emax (S754_finite false p 0) (S754_finite true q 0) with
      | S754_infinity _ => Error OverflowError
      | f => Ok f
      end
  | Zneg p, Zpos q => 
      match SFdiv prec emax (S754_finite true p 0) (S754_finite false q 0) with
      | S754_infinity _ => Error OverflowError
      | f => Ok f
      end
  | Zneg p, Zneg q => 
      match SFdiv prec emax (S754_finite true p 0) (S754_finite true q 0) with
      | S754_infinity _ => Error OverflowError
      | f => Ok f
      end
  end.

(** [x * n] and [x / n] for a [float] [x] and an [int] constant [n]. *)
Definition mul_int (x : spec_float) (n : Z) : spec_float :=
  SFmul prec emax x (float_of_int n).

Definition div_int (x : spec_float) (n : Z) : spec_float :=
  SFdiv prec emax x (float_of_int n).

(** The integer a [float] is printed as under the format [.0f]: the
    nearest one, a tie going to the even one.  [None] for infinities and
    NaN, which print as words. *)
Definition round_half_even (x : spec_float) : option Z :=
  match x with
  | S754_zero _ => Some 0
  | S754_finite s m e =>
      let r :=
        if 0 <=? e then Z.pos m * 2 ^ e
        else
          let d := 2 ^ (- e) in
          let q := Z.pos m / d in
          let twice := 2 * (Z.pos m mod d) in
          if twice <? d then q
          else if d <? twice then q + 1
          else if Z.even q then q else q + 1 in
      Some (if s then - r else r)
  | _ => None
  end.

End Py.

(** Sequencing of fallible steps. *)
Definition obind {A B : Type} (o : result A) (k : A -> result B) : result B :=
  match o with
  | Ok a => k a
  | Error e => Error e
  end.

Notation "'let*' x ':=' c 'in' k" := (obind c (fun x => k))
  (at level 10, x name, c at level 100, k at level 200).

(** ** Questions *)

(** The dict [fetch_questions] builds for each trivia item. *)
Record Question : Type := {
  question : json;
  correct : json;
  options : list json;
  category : json;
  difficulty : json
}.

(** One turn of the loop of [fetch_questions]: the dict display, its entries
    evaluated in the order they are written. *)
Definition organize (item : json) : result Question :=
  let* q := Py.getitem item "question" in
  let* c := Py.getitem item "correct_answer" in
  let* wrong := Py.getitem item "incorrect_answers" in
  let* c' := Py.getitem item "correct_answer" in
  let* opts := Py.add_list wrong [c'] in
  let* cat := Py.getitem item "category" in
  let* dif := Py.getitem item "difficulty" in
  Ok {| question := q; correct := c; options := opts;
        category := cat; difficulty := dif |}.

(** The loop itself: [question_list] grows by one [append] per item, and the
    first failing item ends the call. *)
Fixpoint organize_all (items : list json) (question_list : list Question)
  : result (list Question) :=
  match items with
  | [] => Ok question_list
  | item :: rest =>
      let* q := organize item in
      organize_all rest (question_list ++ [q])
  end.

(** [fetch_questions] from the decoded response body on: [data] is what
    [response.json()] returned. *)
Definition questions_of_response (data : json) : result (list Question) :=
  let* results := Py.getitem data "results" in
  let* items := Py.iter results in
  organize_all items [].

(** ** The world the script runs in *)

(** [st.session_state] once the quiz has been set up: the four entries the
    script assigns together. *)
Record session : Type := {
  questions : list Question;
  current_question : Z;
  points : Z;
  user_answers : list json
}.

(** A formatted string: its literal parts and the values put in between. *)
Inductive frag : Type :=
| Lit (s : string)
| Val (v : json)
| Num (n : Z)
| Fixed0 (x : spec_float).

Definition text : Type := list frag.

(** What a run does that can be seen from outside, in the order it does it. *)
Inductive event : Type :=
| Show (widget : string) (body : text)
| Metric (label : string) (value : text)
| Radio (label : string) (choices : list json)
| Button (label : string)
| Progress (value : spec_float)
| Balloons
| Divider
| ShowJson (v : json)
| HttpGet (amount : Z)
| ChatRequest (prompt : text)
| FileWrite (content : string)
| Sleep (seconds : Z).

(** [session_state] is [None] while ["questions"] is not in the session
    store; [log_file] is the content of [quiz_log.json], [None] when the file
    does not exist; [requests] and [completions] count the calls made to the
    two services; [page] is the trace of the runs so far. *)
Record world : Type := {
  session_state : option session;
  log_file : option string;
  requests : nat;
  completions : nat;
  page : list event
}.

(** What the script reads but does not control.  [trivia n] is the decoded
    body of the [n]-th trivia response, or the failure of [requests.get] or
    [response.json()]; [completion n] is [choices[0].message.content] of the
    [n]-th chat completion, or the failure of the call. *)
Record environment : Type := {
  environ_key : json;
  secrets_key : json;
  trivia : nat -> result json;
  completion : nat -> result json
}.

(** The widgets' values in one run. *)
Record interaction : Type := {
  user_choice : json;
  submit_clicked : bool;
  new_quiz_clicked : bool
}.

(** ** The script monad: state that survives an exception *)

Definition M (A : Type) : Type := world -> outcome A * world.

Definition ret {A : Type} (a : A) : M A := fun w => (Return a, w).

Definition bind {A B : Type} (c : M A) (k : A -> M B) : M B :=
  fun w =>
    match c w with
    | (Return a, w') => k a w'
    | (Raise e, w') => (Raise e, w')
    | (Stopped, w') => (Stopped, w')
    | (Rerun, w') => (Rerun, w')
    end.

Declare Scope script_scope.
Delimit Scope script_scope with script.
Bind Scope script_scope with M.

Notation "x <- c ;; k" := (bind c (fun x => k))
  (at level 61, c at next level, right associativity) : script_scope.
Notation "c ;; k" := (bind c (fun _ => k))
  (at level 61, right associativity) : script_scope.

Local Open Scope script_scope.

Definition raise {A : Type} (e : exn) : M A := fun w => (Raise e, w).
Definition stop {A : Type} : M A := fun w => (Stopped, w).
Definition rerun {A : Type} : M A := fun w => (Rerun, w).
Definition get : M world := fun w => (Return w, w).

(** An expression inside the script: its exception becomes the run's. *)
Definition lift {A : Type} (r : result A) : M A :=
  fun w =>
    match r with
    | Ok a => (Return a, w)
    | Error e => (Raise e, w)
    end.

Definition emit (ev : event) : M unit :=
  fun w => (Return tt, {| session_state := session_state w;
                      log_file := log_file w;
                      requests := requests w;
                      completions := completions w;
                      page := page w ++ [ev] |}).

Definition show (widget : string) (body : text) : M unit :=
  emit (Show widget body).

(** Reading an entry of [st.session_state]. *)
Definition read_session : M session :=
  fun w =>
    match session_state w with
    | Some s => (Return s, w)
    | None => (Raise AttributeError, w)
    end.

Definition write_session (s : session) : M unit :=
  fun w => (Return tt, {| session_state := Some s;
                      log_file := log_file w;
                      requests := requests w;
                      completions := completions w;
                      page := page w |}).

(** [st.session_state.x = ..] and [+=] on one entry. *)
Definition update_session (f : session -> session) : M unit :=
  s <- read_session ;; write_session (f s).

Definition set_points (n : Z) (s : session) : session :=
  {| questions := questions s; current_question := current_question s;
     points := n; user_answers := user_answers s |}.

Definition set_user_answers (l : list json) (s : session) : session :=
  {| questions := questions s; current_question := current_question s;
     points := points s; user_answers := l |}.

Definition set_current_question (n : Z) (s : session) : session :=
  {| questions := questions s; current_question := n;
     points := points s; user_answers := user_answers s |}.

(** [open(LOG_FILE, "w")] followed by the dump: the file holds the new
    content and nothing of the old one. *)
Definition write_log (content : string) : M unit :=
  fun w => (Return tt, {| session_state := session_state w;
                      log_file := Some content;
                      requests := requests w;
                      completions := completions w;
                      page := page w ++ [FileWrite content] |}).

Definition newline : string := String (ascii_of_nat 10) EmptyString.

(** ** The script *)

Section Script.

(** [json.dumps(.., indent=2)] and [json.loads] of the standard library,
    by which [json.dump] writes and [json.load] reads the file; [None] is
    a decoding error. *)
Variable json_dumps : json -> string.
Variable json_loads : string -> option json.

Variable env : environment.

(** Lines 14-19: the key is looked up in the process environment, then in
    the secret store; without one the run shows an error and stops. *)
Definition check_api_key : M json :=
  let api_key := Py.or_ (environ_key env) (secrets_key env) in
  if negb (Py.truthy api_key)
  then show "error" [Lit "Missing API Key! Add OPENAI_API_KEY to .env file"] ;;
       stop
  else ret api_key.

(** [requests.get(url)] and [response.json()]. *)
Definition http_get (how_many : Z) : M json :=
  fun w =>
    lift (trivia env (requests w))
         {| session_state := session_state w;
            log_file := log_file w;
            requests := S (requests w);
            completions := completions w;
            page := page w ++ [HttpGet how_many] |}.

Definition fetch_questions (how_many : Z) : M (list Question) :=
  data <- http_get how_many ;;
  lift (questions_of_response data).

(** Lines 60-66: the history is read from the file when there is one. *)
Definition load_history : M json :=
  w <- get ;;
  match log_file w with
  | Some content =>
      match json_loads content with
      | Some v => ret v
      | None => raise JSONDecodeError
      end
  | None => ret (JArr [])
  end.

Definition new_session (qs : list Question) : session :=
  {| questions := qs; current_question := 0; points := 0;
     user_answers := [] |}.

(** Lines 75-80. *)
Definition init_session : M unit :=
  w <- get ;;
  match session_state w with
  | Some _ => ret tt
  | None =>
      qs <- fetch_questions 5 ;;
      write_session (new_session qs)
  end.

(** Lines 83-99. *)
Definition get_explanation (question_text correct_answer : json) : M json :=
  let prompt := [Lit "Explain in simple terms why '"; Val correct_answer;
                 Lit "' is the correct answer for: '"; Val question_text;
                 Lit "'."] in
  fun w =>
    lift (completion env (completions w))
         {| session_state := session_state w;
            log_file := log_file w;
            requests := requests w;
            completions := S (completions w);
            page := page w ++ [ChatRequest prompt] |}.

(** [quiz_history.append(entry)]: only a list has [append]. *)
Definition history_append (quiz_history entry : json) : result json :=
  match quiz_history with
  | JArr l => Ok (JArr (l ++ [entry]))
  | _ => Error AttributeError
  end.

Definition history_entry (q : Question) (choice explanation : json) : json :=
  JObj [("question", question q);
        ("your_answer", choice);
        ("correct_answer", correct q);
        ("explanation", explanation)].

(** Lines 153-162: the entry is appended in memory and the whole history
    written over the file. *)
Definition record_answer (quiz_history entry : json) : M json :=
  history <- lift (history_append quiz_history entry) ;;
  write_log (json_dumps history) ;;
  ret history.

(** Lines 130-170, the body of [if st.button("Submit Answer")]. *)
Definition submit_answer (quiz_history : json) (q : Question) (choice : json)
  : M unit :=
  let correct_answer := correct q in
  (if Py.eqb choice correct_answer
   then show "success" [Lit "Correct! Great job!"] ;;
        update_session (fun s => set_points (points s + 1) s)
   else show "error" [Lit "Wrong! The correct answer was: **";
                      Val correct_answer; Lit "**"]) ;;
  update_session (fun s => set_user_answers (user_answers s ++ [choice]) s) ;;
  show "spinner" [Lit "AI is thinking..."] ;;
  explanation <- get_explanation (question q) correct_answer ;;
  show "info" [Lit (String.append "**AI Explanation:**" (String.append newline newline));
               Val explanation] ;;
  record_answer quiz_history (history_entry q choice explanation) ;;
  show "info" [Lit "Next question in 20 seconds..."] ;;
  emit (Sleep 20) ;;
  update_session (fun s => set_current_question (current_question s + 1) s) ;;
  rerun.

(** Lines 109-170: the page of a running quiz. *)
Definition question_page (quiz_history : json) (ui : interaction)
           (current total_questions : Z) : M unit :=
  s <- read_session ;;
  q <- lift (Py.index (questions s) current) ;;
  show "subheader" [Lit "Question "; Num (current + 1); Lit " of ";
                    Num total_questions] ;;
  show "write" [Lit "**"; Val (question q); Lit "**"] ;;
  show "caption" [Val (category q); Lit " | "; Val (difficulty q)] ;;
  emit (Radio "Choose your answer:" (options q)) ;;
  emit (Button "Submit Answer") ;;
  if submit_clicked ui
  then submit_answer quiz_history q (user_choice ui)
  else ret tt.

(** Line 184. *)
Definition percentage (score total_questions : Z) : result spec_float :=
  let* ratio := Py.true_div score total_questions in
  Ok (Py.mul_int ratio 100).

(** Lines 172-198: the page of a finished quiz.  [st.progress] is recorded
    with the value it is given; what the widget does with a value outside
    of [0, 1] is Streamlit's and is left out. *)
Definition results_page (ui : interaction) (total_questions : Z) : M unit :=
  emit Balloons ;;
  show "success" [Lit "Quiz Complete!"] ;;
  s <- read_session ;;
  let score := points s in
  emit (Metric "Your Score" [Num score; Lit " / "; Num total_questions]) ;;
  pct <- lift (percentage score total_questions) ;;
  emit (Progress (Py.div_int pct 100)) ;;
  show "write" [Lit "**"; Fixed0 pct; Lit "%** Correct"] ;;
  emit (Button "Start New Quiz") ;;
  if new_quiz_clicked ui
  then qs <- fetch_questions 5 ;;
       write_session (new_session qs) ;;
       rerun
  else ret tt.

(** Lines 202-207. *)
Definition show_history (quiz_history : json) : M unit :=
  if Py.truthy quiz_history
  then emit (ShowJson quiz_history)
  else show "write" [Lit "No quiz history yet!"].

(** Lines 210-231. *)
Definition show_statistics (current total_questions : Z) : M unit :=
  emit Divider ;;
  emit (Metric "Questions" [Num total_questions]) ;;
  s <- read_session ;;
  emit (Metric "Correct" [Num (points s)]) ;;
  s' <- read_session ;;
  let wrong := if current <=? total_questions
               then current - points s'
               else total_questions - points s' in
  emit (Metric "Wrong" [Num wrong]).

(** One run of the script, top to bottom. *)
Definition script (ui : interaction) : M unit :=
  check_api_key ;;
  quiz_history <- load_history ;;
  show "title" [Lit "AI Quiz Master"] ;;
  show "write" [Lit "Test your knowledge and get AI-powered explanations!"] ;;
  init_session ;;
  s <- read_session ;;
  let total_questions := Z.of_nat (List.length (questions s)) in
  let current := current_question s in
  (if current <? total_questions
   then question_page quiz_history ui current total_questions
   else results_page ui total_questions) ;;
  show_history quiz_history ;;
  show_statistics current total_questions.

End Script.

(** ** A JSON codec

    A writer and a reader for the text of [quiz_log.json], with which the
    abstract [json_dumps] and [json_loads] of the script are instantiated.
    The writer lays a document out as [indent=2] does and escapes every
    character outside printable ASCII; a [float] is written with all its
    decimal digits. *)
Module Codec.

Local Notation "a +++ b" := (String.append a b)
  (at level 60, right associativity).

Definition dquote : ascii := ascii_of_nat 34.
Definition backslash : ascii := ascii_of_nat 92.

Definition str (c : ascii) : string := String c EmptyString.

Fixpoint of_uint (d : Decimal.uint) : string :=
  match d with
  | Decimal.Nil => ""
  | Decimal.D0 d => String "0" (of_uint d)
  | Decimal.D1 d => String "1" (of_uint d)
  | Decimal.D2 d => String "2" (of_uint d)
  | Decimal.D3 d => String "3" (of_uint d)
  | Decimal.D4 d => String "4" (of_uint d)
  | Decimal.D5 d => String "5" (of_uint d)
  | Decimal.D6 d => String "6" (of_uint d)
  | Decimal.D7 d => String "7" (of_uint d)
  | Decimal.D8 d => String "8" (of_uint d)
  | Decimal.D9 d => String "9" (of_uint d)
  end.

Definition of_N (n : N) : string :=
  match n with
  | N0 => "0"
  | Npos p => of_uint (Pos.to_uint p)
  end.

Definition of_Z (n : Z) : string :=
  match n with
  | Z0 => "0"
  | Zpos p => of_uint (Pos.to_uint p)
  | Zneg p => String "-" (of_uint (Pos.to_uint p))
  end.

Fixpoint zeros (n : nat) : string :=
  match n with
  | O => ""
  | S n' => String "0" (zeros n')
  end.

(** [m * 2^e] for [e < 0], digit by digit: it is [m * 5^(-e)] with the
    point [-e] places from the right. *)
Definition of_fraction (m : positive) (e : Z) : string :=
  let k := Z.to_nat (- e) in
  let scaled := Z.pos m * 5 ^ (- e) in
  let unit := 10 ^ (- e) in
  let frac := of_Z (scaled mod unit) in
  (of_Z (scaled / unit) +++ "." +++ zeros (k - String.length frac) +++ frac).

Definition of_float (x : spec_float) : string :=
  match x with
  | S754_zero false => "0.0"
  | S754_zero true => "-0.0"
  | S754_infinity false => "Infinity"
  | S754_infinity true => "-Infinity"
  | S754_nan => "NaN"
  | S754_finite s m e =>
      ((if s then "-" else "") ++
       (if 0 <=? e then of_Z (Z.pos m * 2 ^ e) +++ ".0" else of_fraction m e))
  end.

Definition hex_digit (n : N) : ascii :=
  match n with
  | 0%N => "0" | 1%N => "1" | 2%N => "2" | 3%N => "3" | 4%N => "4"
  | 5%N => "5" | 6%N => "6" | 7%N => "7" | 8%N => "8" | 9%N => "9"
  | 10%N => "a" | 11%N => "b" | 12%N => "c" | 13%N => "d" | 14%N => "e"
  | _ => "f"
  end%char.

Definition escape (c : ascii) : string :=
  let n := N_of_ascii c in
  if Ascii.eqb c dquote then String backslash (str dquote)
  else if Ascii.eqb c backslash then String backslash (str backslash)
  else if (n =? 10)%N then String backslash "n"
  else if (n =? 13)%N then String backslash "r"
  else if (n =? 9)%N then String backslash "t"
  else if (n =? 8)%N then String backslash "b"
  else if (n =? 12)%N then String backslash "f"
  else if ((32 <=? n) && (n <=? 126))%N then str c
  else String backslash
         (String "u" (String "0" (String "0"
            (String (hex_digit (n / 16)) (str (hex_digit (n mod 16))))))).

Fixpoint escape_all (s : string) : string :=
  match s with
  | EmptyString => ""
  | String c s' => (escape c +++ escape_all s')
  end.

Definition quote (s : string) : string :=
  String dquote (escape_all s +++ str dquote).

Fixpoint spaces (n : nat) : string :=
  match n with
  | O => ""
  | S n' => String " " (spaces n')
  end.

Definition break (level : nat) : string :=
  (newline +++ spaces (2 * level)).

(** The items of a non-empty list or dict, one per line. *)
Fixpoint lines (level : nat) (items : list string) : string :=
  match items with
  | [] => ""
  | [x] => (break level +++ x)
  | x :: rest => (break level +++ x +++ "," +++ lines level rest)
  end.

Fixpoint write (level : nat) (v : json) {struct v} : string :=
  match v with
  | JNull => "null"
  | JBool true => "true"
  | JBool false => "false"
  | JInt n => of_Z n
  | JFloat x => of_float x
  | JStr s => quote s
  | JArr [] => "[]"
  | JArr l =>
      ("[" +++ lines (S level) (map (write (S level)) l) +++ break level +++ "]")
  | JObj [] => "{}"
  | JObj d =>
      ("{" +++ lines (S level)
                (map (fun kv => (quote (fst kv) +++ ": " +++ write (S level) (snd kv))) d)
           +++ break level +++ "}")
  end.

Definition dumps (v : json) : string := write 0 v.

(** *** Reading *)

Definition is_digit (c : ascii) : bool :=
  ((48 <=? N_of_ascii c) && (N_of_ascii c <=? 57))%N.

Definition digit (c : ascii) : Z := Z.of_N (N_of_ascii c) - 48.

Definition is_space (c : ascii) : bool :=
  let n := N_of_ascii c in
  ((n =? 32) || (n =? 9) || (n =? 10) || (n =? 13))%N.

Fixpoint skip (s : string) : string :=
  match s with
  | String c s' => if is_space c then skip s' else s
  | EmptyString => s
  end.

(** [expect word s]: [s] without its prefix [word]. *)
Fixpoint expect (word s : string) : option string :=
  match word, s with
  | EmptyString, _ => Some s
  | String a word', String b s' =>
      if Ascii.eqb a b then expect word' s' else None
  | _, _ => None
  end.

(** The longest run of digits [s] starts with: their value, how many they
    are, and what follows. *)
Fixpoint digits (s : string) (value : Z) (count : Z) : Z * Z * string :=
  match s with
  | String c s' =>
      if is_digit c then digits s' (10 * value + digit c) (count + 1)
      else (value, count, s)
  | EmptyString => (value, count, s)
  end.

Definition hex_value (c : ascii) : option N :=
  let n := N_of_ascii c in
  if ((48 <=? n) && (n <=? 57))%N then Some (n - 48)%N
  else if ((97 <=? n) && (n <=? 102))%N then Some (n - 87)%N
  else if ((65 <=? n) && (n <=? 70))%N then Some (n - 55)%N
  else None.

Definition byte (n : N) : ascii := ascii_of_N n.

(** A code point as the characters of the model: itself below 256, its
    UTF-8 bytes from there on. *)
Definition of_code_point (n : N) : string :=
  (if n <? 256 then str (byte n)
   else if n <? 2048
   then String (byte (192 + n / 64)) (str (byte (128 + n mod 64)))
   else String (byte (224 + n / 4096))
          (String (byte (128 + (n / 64) mod 64))
             (str (byte (128 + n mod 64)))))%N.

Definition unescape (s : string) : option (string * string) :=
  match s with
  | String c s' =>
      let n := N_of_ascii c in
      if Ascii.eqb c dquote then Some (str dquote, s')
      else if Ascii.eqb c backslash then Some (str backslash, s')
      else if (n =? 47)%N then Some ("/", s')
      else if (n =? 110)%N then Some (str (byte 10), s')
      else if (n =? 114)%N then Some (str (byte 13), s')
      else if (n =? 116)%N then Some (str (byte 9), s')
      else if (n =? 98)%N then Some (str (byte 8), s')
      else if (n =? 102)%N then Some (str (byte 12), s')
      else if (n =? 117)%N then
        match s' with
        | String h3 (String h2 (String h1 (String h0 rest))) =>
            match hex_value h3, hex_value h2, hex_value h1, hex_value h0 with
            | Some a, Some b, Some c, Some d =>
                Some (of_code_point (4096 * a + 256 * b + 16 * c + d)%N, rest)
            | _, _, _, _ => None
            end
        | _ => None
        end
      else None
  | EmptyString => None
  end.

(** The characters of a string literal after its opening quote, up to the
    closing one. *)
Fixpoint read_string (fuel : nat) (s : string) : option (string * string) :=
  match fuel, s with
  | S fuel', String c s' =>
      if Ascii.eqb c dquote then Some ("", s')
      else if Ascii.eqb c backslash then
        match unescape s' with
        | Some (cs, rest) =>
            match read_string fuel' rest with
            | Some (t, rest') => Some (cs +++ t, rest')
            | None => None
            end
        | None => None
        end
      else if (N_of_ascii c <? 32)%N then None
      else
        match read_string fuel' s' with
        | Some (t, rest) => Some (String c t, rest)
        | None => None
        end
  | _, _ => None
  end.

(** [mantissa * 10^exponent] rounded once to a [float]. *)
Definition decimal (negative : bool) (mantissa exponent : Z) : spec_float :=
  match mantissa with
  | Zpos m =>
      if 0 <=? exponent
      then binary_normalize prec emax
             ((if negative then Z.neg m else Z.pos m) * 10 ^ exponent) 0 false
      else SFdiv prec emax (S754_finite negative m 0)
                 (S754_finite false (Z.to_pos (10 ^ (- exponent))) 0)
  | _ => S754_zero negative
  end.

Definition read_exponent (s : string) : option (Z * string) :=
  match s with
  | String c s' =>
      if Ascii.eqb c "e" || Ascii.eqb c "E" then
        let '(negative, s'') :=
          match s' with
          | String "-" r => (true, r)
          | String "+" r => (false, r)
          | _ => (false, s')
          end in
        let '(v, n, rest) := digits s'' 0 0 in
        if n =? 0 then None else Some (if negative then - v else v, rest)
      else Some (0, s)
  | EmptyString => Some (0, s)
  end.

(** A number: [-? int frac? exp?], an [int] without fraction and
    exponent and a [float] with one of them. *)
Definition read_number (s : string) : option (json * string) :=
  let '(negative, s1) :=
    match s with
    | String "-" r => (true, r)
    | _ => (false, s)
    end in
  let '(whole, n, s2) := digits s1 0 0 in
  if n =? 0 then None
  else if (1 <? n) && (match s1 with String "0" _ => true | _ => false end)
  then None
  else
    match s2 with
    | String "." s3 =>
        let '(all, k, s4) := digits s3 whole 0 in
        if k =? 0 then None
        else
          match read_exponent s4 with
          | Some (x, rest) => Some (JFloat (decimal negative all (x - k)), rest)
          | None => None
          end
    | String c _ =>
        if Ascii.eqb c "e" || Ascii.eqb c "E" then
          match read_exponent s2 with
          | Some (x, rest) => Some (JFloat (decimal negative whole x), rest)
          | None => None
          end
        else Some (JInt (if negative then - whole else whole), s2)
    | EmptyString => Some (JInt (if negative then - whole else whole), s2)
    end.

(** [d[key] = v] on dict items: a key met again keeps its place. *)
Fixpoint assign (key : string) (v : json) (d : list (string * json))
  : list (string * json) :=
  match d with
  | [] => [(key, v)]
  | (k, x) :: d' =>
      if String.eqb k key then (k, v) :: d' else (k, x) :: assign key v d'
  end.

Section Containers.

(** The reader of a value, one level of nesting down. *)
Variable read_value : string -> option (json * string).

(** After [[] and a first non-space character that is not []]. *)
Fixpoint read_items (fuel : nat) (s : string) (acc : list json)
  : option (json * string) :=
  match fuel with
  | O => None
  | S fuel' =>
      match read_value s with
      | Some (v, rest) =>
          match skip rest with
          | String "," rest' => read_items fuel' (skip rest') (acc ++ [v])
          | String "]" rest' => Some (JArr (acc ++ [v]), rest')
          | _ => None
          end
      | None => None
      end
  end.

Fixpoint read_members (fuel : nat) (s : string) (acc : list (string * json))
  : option (json * string) :=
  match fuel with
  | O => None
  | S fuel' =>
      match s with
      | String c s1 =>
          if Ascii.eqb c dquote then
            match read_string (String.length s1) s1 with
            | Some (key, s2) =>
                match skip s2 with
                | String ":" s3 =>
                    match read_value (skip s3) with
                    | Some (v, s4) =>
                        match skip s4 with
                        | String "," s5 =>
                            read_members fuel' (skip s5) (assign key v acc)
                        | String "}" s5 => Some (JObj (assign key v acc), s5)
                        | _ => None
                        end
                    | None => None
                    end
                | _ => None
                end
            | None => None
            end
          else None
      | EmptyString => None
      end
  end.

End Containers.

Fixpoint read_value (fuel : nat) (s : string) : option (json * string) :=
  match fuel with
  | O => None
  | S fuel' =>
      match s with
      | String c s' =>
          if Ascii.eqb c dquote then
            match read_string (String.length s') s' with
            | Some (t, rest) => Some (JStr t, rest)
            | None => None
            end
          else if Ascii.eqb c "[" then
            match skip s' with
            | String "]" rest => Some (JArr [], rest)
            | s'' => read_items (read_value fuel') (String.length s'') s'' []
            end
          else if Ascii.eqb c "{" then
            match skip s' with
            | String "}" rest => Some (JObj [], rest)
            | s'' => read_members (read_value fuel') (String.length s'') s'' []
            end
          else if Ascii.eqb c "n" then
            option_map (pair JNull) (expect "ull" s')
          else if Ascii.eqb c "t" then
            option_map (pair (JBool true)) (expect "rue" s')
          else if Ascii.eqb c "f" then
            option_map (pair (JBool false)) (expect "alse" s')
          else if Ascii.eqb c "N" then
            option_map (pair (JFloat S754_nan)) (expect "aN" s')
          else if Ascii.eqb c "I" then
            option_map (pair (JFloat (S754_infinity false))) (expect "nfinity" s')
          else
            match expect "-Infinity" s with
            | Some rest => Some (JFloat (S754_infinity true), rest)
            | None => read_number s
            end
      | EmptyString => None
      end
  end.

(** A document is one value with nothing but white space around it. *)
Definition loads (s : string) : option json :=
  match read_value (String.length s) (skip s) with
  | Some (v, rest) =>
      match skip rest with
      | EmptyString => Some v
      | _ => None
      end
  | None => None
  end.

End Codec.

(** ** Concrete worlds, for running the definitions *)
Module Sample.

Definition item (q a : string) (wrong : list string) : json :=
  JObj [("type", JStr "multiple");
        ("difficulty", JStr "easy");
        ("category", JStr "General Knowledge");
        ("question", JStr q);
        ("correct_answer", JStr a);
        ("incorrect_answers", JArr (map JStr wrong))].

Definition response (items : list json) : json :=
  JObj [("response_code", JInt (if (List.length items =? 0)%nat then 1 else 0));
        ("results", JArr items)].

Definition two_items : list json :=
  [item "What is 2 + 2?" "4" ["3"; "5"; "22"];
   item "Capital of France?" "Paris" ["Rome"; "Lyon"; "Nice"]].

(** A key in the process environment, a trivia service that always
    answers with [items], a chat service that always answers. *)
Definition env (items : list json) : environment :=
  {| environ_key := JStr "sk-test";
     secrets_key := JNull;
     trivia := fun _ => Ok (response items);
     completion := fun _ => Ok (JStr "Because it is.") |}.


(** The chat service is down. *)
Definition env_chat_down (items : list json) : environment :=
  {| environ_key := JStr "sk-test";
     secrets_key := JNull;
     trivia := fun _ => Ok (response items);
     completion := fun _ => Error (ExternalError "APIConnectionError") |}.

(** A new process and a new session: no history file, nothing rendered. *)
Definition fresh : world :=
  {| session_state := None; log_file := None;
     requests := 0; completions := 0; page := [] |}.

Definition idle : interaction :=
  {| user_choice := JNull; submit_clicked := false;
     new_quiz_clicked := false |}.

Definition submit (choice : string) : interaction :=
  {| user_choice := JStr choice; submit_clicked := true;
     new_quiz_clicked := false |}.

Definition new_quiz : interaction :=
  {| user_choice := JNull; submit_clicked := false;
     new_quiz_clicked := true |}.

Definition run (e : environment) (ui : interaction) (w : world)
  : outcome unit * world :=
  script Codec.dumps Codec.loads e ui w.

Definition two_questions : list Question :=
  [{| question := JStr "What is 2 + 2?"; correct := JStr "4";
      options := [JStr "3"; JStr "5"; JStr "22"; JStr "4"];
      category := JStr "General Knowledge"; difficulty := JStr "easy" |};
   {| question := JStr "Capital of France?"; correct := JStr "Paris";
      options := [JStr "Rome"; JStr "Lyon"; JStr "Nice"; JStr "Paris"];
      category := JStr "General Knowledge"; difficulty := JStr "easy" |}].

(** [fresh] after one trivia request. *)
Definition fetched : world :=
  {| session_state := None; log_file := None;
     requests := 1; completions := 0; page := [HttpGet 5] |}.

(** A process that finds [content] in the history file. *)
Definition with_log (content : string) : world :=
  {| session_state := None; log_file := Some content;
     requests := 0; completions := 0; page := [] |}.

Definition entry (q yours right why : string) : json :=
  JObj [("question", JStr q); ("your_answer", JStr yours);
        ("correct_answer", JStr right); ("explanation", JStr why)].

Definition first_entry : json :=
  entry "What is 2 + 2?" "4" "4" "Because it is.".

Definition second_entry : json :=
  entry "Capital of France?" "Rome" "Paris" "Because it is.".

(** A session that has just been set up with [two_questions], and the same
    one question and two questions later. *)
Definition started : world :=
  {| session_state := Some (new_session two_questions); log_file := None;
     requests := 1; completions := 0; page := [] |}.

Definition after_one : world := snd (run (env two_items) (submit "4") started).

Definition after_two : world := snd (run (env two_items) (submit "Rome") after_one).


Definition restarted : world := snd (run (env two_items) new_quiz after_two).

(** The first run of a session whose trivia response lists no question. *)
Definition empty_quiz : world := snd (run (env []) idle fresh).

(** A finished quiz of five questions, two of them answered right. *)
Definition five_questions : list Question :=
  two_questions ++ two_questions ++ [nth 0 two_questions
    (Build_Question JNull JNull [] JNull JNull)].

Definition two_of_five_done : world :=
  {| session_state :=
       Some {| questions := five_questions; current_question := 5; points := 2;
               user_answers := [JStr "4"; JStr "Rome"; JStr "4"; JStr "Rome";
                                JStr "3"] |};
     log_file := None; requests := 1; completions := 5; page := [] |}.

(** An item without its category. *)
Definition item_without_category : json :=
  JObj [("question", JStr "Largest planet?");
        ("correct_answer", JStr "Jupiter");
        ("incorrect_answers", JArr [JStr "Mars"; JStr "Venus"; JStr "Earth"]);
        ("difficulty", JStr "easy")].

(** A trivia service that answers with a code and no results entry. *)
Definition env_no_results_entry : environment :=
  {| environ_key := JStr "sk-test";
     secrets_key := JNull;
     trivia := fun _ => Ok (JObj [("response_code", JInt 5)]);
     completion := fun _ => Ok (JStr "Because it is.") |}.

(** The trivia service is down. *)
Definition env_trivia_down : environment :=
  {| environ_key := JStr "sk-test";
     secrets_key := JNull;
     trivia := fun _ => Error (ExternalError "ConnectionError");
     completion := fun _ => Ok (JStr "Because it is.") |}.

(** A click on a button that is not on the page shown. *)
Definition stray_click : interaction :=
  {| user_choice := JStr "4"; submit_clicked := false;
     new_quiz_clicked := true |}.

Definition rendered : world := snd (run (env two_items) stray_click started).

(** [started] with a history file that holds an empty object. *)
Definition started_on_an_object : world :=
  {| session_state := Some (new_session two_questions);
     log_file := Some "{}";
     requests := 1; completions := 0; page := [] |}.

(** The page of the second question, rendered with nothing clicked. *)
Definition second_question_shown : world :=
  snd (run (env two_items) idle after_one).

(** A session whose trivia response listed no question. *)
Definition empty_session : world :=
  {| session_state := Some (new_session []); log_file := None;
     requests := 1; completions := 0; page := [] |}.

End Sample.

(** ** The vocabulary of the properties *)

Definition total (s : session) : Z := Z.of_nat (List.length (questions s)).

(** IN_PROGRESS and COMPLETE, as the script's [if current < total_questions]
    tells them apart. *)
Definition in_progress (s : session) : Prop :=
  0 <= current_question s < total s.

Definition complete (s : session) : Prop :=
  current_question s = total s.

(** The [else] of that test: the results page is shown. *)
Definition finished (s : session) : Prop :=
  total s <= current_question s.

(** One answer recorded per question passed, and no more points than
    questions passed. *)
Definition consistent (s : session) : Prop :=
  Z.of_nat (List.length (user_answers s)) = current_question s /\
  points s <= current_question s.

(** A trivia item that carries the five entries the loop reads, the
    incorrect answers being a list. *)
Definition well_formed_item (item : json) : Prop :=
  exists q c wrong cat dif,
    Py.getitem item "question" = Ok q /\
    Py.getitem item "correct_answer" = Ok c /\
    Py.getitem item "incorrect_answers" = Ok (JArr wrong) /\
    Py.getitem item "category" = Ok cat /\
    Py.getitem item "difficulty" = Ok dif.

(** The exact value of a [float], when it is a number. *)
Definition float_value (x : spec_float) : option Q :=
  match x with
  | S754_zero _ => Some (0 # 1)
  | S754_finite s m e =>
      let v := if s then Z.neg m else Z.pos m in
      Some (if 0 <=? e then inject_Z (v * 2 ^ e) else v # Z.to_pos (2 ^ (- e)))
  | _ => None
  end.

(** What the specification asks of [fetch(count)]: [count] questions, each
    with a non-empty correct answer that is one of its options. *)
Definition fetch_as_specified (count : Z) (qs : list Question) : Prop :=
  Z.of_nat (List.length qs) = count /\
  Forall (fun q => correct q <> JStr "" /\ In (correct q) (options q)) qs.

(** The world after one more event. *)
Definition shown (w : world) (ev : event) : world :=
  {| session_state := session_state w; log_file := log_file w;
     requests := requests w; completions := completions w;
     page := page w ++ [ev] |}.


(** The session after [choice] has been submitted for [q], following the
    specification's [submit]: the score goes up by one on a match, the
    choice joins the given answers, the index moves on by one. *)
Definition submitted (s : session) (q : Question) (choice : json) : session :=
  {| questions := questions s;
     current_question := current_question s + 1;
     points := points s + (if Py.eqb choice (correct q) then 1 else 0);
     user_answers := user_answers s ++ [choice] |}.

(** The bound [B = c * 2^k]: a mantissa [m] at exponent [e <= k] is at most
    [B] when [m <= c * 2^(k - e)]; at [B] itself nothing may have been
    rounded off. *)
Definition below (c k m e : Z) (l : location) : Prop :=
  0 <= m /\ e <= k /\ m <= c * 2 ^ (k - e) /\
  (m = c * 2 ^ (k - e) -> l = loc_Exact).

(** The line of the results page that carries the percentage. *)
Definition percentage_line (pct : spec_float) : event :=
  Show "write" [Lit "**"; Fixed0 pct; Lit "%** Correct"].

(** The session a submit leaves when it is cut short after the answer has
    been taken down: as [submitted], the index not moved. *)
Definition taken_down (s : session) (q : Question) (choice : json) : session :=
  {| questions := questions s;
     current_question := current_question s;
     points := points s + (if Py.eqb choice (correct q) then 1 else 0);
     user_answers := user_answers s ++ [choice] |}.


Section Runs.

Variable json_dumps : json -> string.
Variable json_loads : string -> option json.
Variable env : environment.

(** A submit operation: a run of the script over a quiz in progress, the
    Submit button clicked, which reaches the [st.rerun()] that ends the
    handler. *)
Definition submit_run (ui : interaction) (w w' : world) : Prop :=
  (exists s, session_state w = Some s /\ in_progress s) /\
  submit_clicked ui = true /\
  script json_dumps json_loads env ui w = (Rerun, w').

(** The start-new-quiz reset: a run over a finished quiz, the button
    clicked, which reaches its [st.rerun()]. *)
Definition reset_run (ui : interaction) (w w' : world) : Prop :=
  (exists s, session_state w = Some s /\ finished s) /\
  new_quiz_clicked ui = true /\
  script json_dumps json_loads env ui w = (Rerun, w').


End Runs.

(** ** Tactics for running the script symbolically *)

Ltac unfold_script :=
  unfold script, question_page, results_page, submit_answer, record_answer,
    show_history, show_statistics, init_session, fetch_questions, http_get,
    get_explanation, load_history, check_api_key, update_session,
    read_session, write_session, write_log, show, emit, get, rerun, stop,
    raise, lift, ret, bind in *.

(** Case analysis on what the run branches on next: the innermost test
    that does not compute, by a fact at hand when there is one. *)
Ltac atomic x :=
  lazymatch x with
  | context [match _ with _ => _ end] => fail
  | _ => idtac
  end.

Ltac next_case :=
  match goal with
  | |- context [match ?x with _ => _ end] =>
      atomic x;
      first [ match goal with H : x = _ |- _ => rewrite H end
            | destruct x eqn:? ];
      simpl
  end.

(** A history that took an [append] was a list. *)
Ltac list_history :=
  match goal with
  | Hh : history_append ?j _ = Ok _ |- _ =>
      unfold history_append in Hh; destruct j; try discriminate Hh;
      injection Hh as <-
  end.

(** * Properties *)

(** ** Fetching questions *)

Lemma obind_Ok : forall (A B : Type) (o : result A) (k : A -> result B) b,
    obind o k = Ok b -> exists a, o = Ok a /\ k a = Ok b.
Proof.
  intros A B [a | e] k b H; simpl in H; try discriminate.
  exists a; split; [reflexivity | assumption].
Qed.

Lemma organize_Ok : forall item q,
    organize item = Ok q ->
    exists wrong,
      Py.getitem item "incorrect_answers" = Ok (JArr wrong) /\
      Py.getitem item "correct_answer" = Ok (correct q) /\
      Py.getitem item "question" = Ok (question q) /\
      Py.getitem item "category" = Ok (category q) /\
      Py.getitem item "difficulty" = Ok (difficulty q) /\
      options q = wrong ++ [correct q].
Proof.
  unfold organize; intros item q H.
  apply obind_Ok in H; destruct H as (qt & Hq & H).
  apply obind_Ok in H; destruct H as (c & Hc & H).
  apply obind_Ok in H; destruct H as (wr & Hw & H).
  apply obind_Ok in H; destruct H as (c' & Hc' & H).
  apply obind_Ok in H; destruct H as (opts & Ho & H).
  apply obind_Ok in H; destruct H as (cat & Hcat & H).
  apply obind_Ok in H; destruct H as (dif & Hdif & H).
  injection H as <-; simpl.
  rewrite Hc in Hc'; injection Hc' as <-.
  destruct wr; simpl in Ho; try discriminate.
  injection Ho as <-.
  exists items; repeat split; assumption.
Qed.

Lemma organize_well_formed : forall item,
    well_formed_item item -> exists q, organize item = Ok q.
Proof.
  intros item (q & c & wrong & cat & dif & Hq & Hc & Hw & Hcat & Hdif).
  unfold organize; rewrite Hq, Hc, Hw, Hcat, Hdif; simpl.
  eexists; reflexivity.
Qed.

(** The loop turns the items into questions one for one, in order, behind
    what [question_list] already held. *)
Lemma organize_all_Ok : forall items acc qs,
    organize_all items acc = Ok qs ->
    exists new, qs = acc ++ new /\
                Forall2 (fun item q => organize item = Ok q) items new.
Proof.
  induction items as [| item rest IH]; simpl; intros acc qs H.
  - injection H as <-; exists []; split; [now rewrite app_nil_r | constructor].
  - apply obind_Ok in H; destruct H as (q & Hq & H).
    destruct (IH _ _ H) as (new & -> & Hall).
    exists (q :: new); split; [now rewrite <- app_assoc | now constructor].
Qed.

Lemma organize_all_well_formed : forall items acc,
    Forall well_formed_item items -> exists qs, organize_all items acc = Ok qs.
Proof.
  induction items as [| item rest IH]; simpl; intros acc H.
  - eexists; reflexivity.
  - inversion H as [| ? ? Hitem Hrest]; subst.
    destruct (organize_well_formed item Hitem) as (q & ->); simpl.
    apply IH; assumption.
Qed.

Lemma fetch_questions_Ok : forall env how_many w qs w',
    fetch_questions env how_many w = (Return qs, w') ->
    exists data items,
      trivia env (requests w) = Ok data /\
      (let* results := Py.getitem data "results" in Py.iter results) = Ok items /\
      Forall2 (fun item q => organize item = Ok q) items qs.
Proof.
  unfold fetch_questions, bind, http_get, lift; intros env how_many w qs w' H.
  destruct (trivia env (requests w)) as [data | e]; try discriminate.
  destruct (questions_of_response data) as [qs' | e] eqn:Hq; try discriminate.
  injection H as -> _.
  unfold questions_of_response in Hq; rename Hq into H.
  apply obind_Ok in H; destruct H as (results & Hr & H).
  apply obind_Ok in H; destruct H as (items & Hi & H).
  apply organize_all_Ok in H; destruct H as (new & -> & Hall).
  exists data, items; rewrite Hr; simpl; auto.
Qed.

(** C9: in every question [fetch_questions] returns, the options are the
    item's incorrect answers in their order followed by the correct answer,
    so the correct answer is the last option. *)
Theorem fetch_correct_answer_is_last_option :
  forall env how_many w qs w' q,
    fetch_questions env how_many w = (Return qs, w') ->
    In q qs ->
    exists item wrong,
      Py.getitem item "incorrect_answers" = Ok (JArr wrong) /\
      Py.getitem item "correct_answer" = Ok (correct q) /\
      options q = wrong ++ [correct q] /\
      last (options q) JNull = correct q.
Proof.
  intros env how_many w qs w' q H Hin.
  apply fetch_questions_Ok in H; destruct H as (data & items & _ & _ & Hall).
  induction Hall as [| item q' items qs Hq _ IH]; [contradiction |].
  destruct Hin as [<- | Hin]; [| exact (IH Hin)].
  apply organize_Ok in Hq; destruct Hq as (wrong & Hw & Hc & _ & _ & _ & Ho).
  exists item, wrong; repeat split; try assumption.
  rewrite Ho; apply last_last.
Qed.

Lemma fetch_correct_answer_is_last_option_witness :
  let q := nth 1 Sample.two_questions (Build_Question JNull JNull [] JNull JNull) in
  fetch_questions (Sample.env Sample.two_items) 5 Sample.fresh
    = (Return Sample.two_questions, Sample.fetched) /\
  In q Sample.two_questions /\
  exists item wrong,
    Py.getitem item "incorrect_answers" = Ok (JArr wrong) /\
    Py.getitem item "correct_answer" = Ok (correct q) /\
    options q = wrong ++ [correct q] /\
    last (options q) JNull = correct q.
Proof.
  split; [reflexivity |].
  split; [simpl; auto |].
  apply (fetch_correct_answer_is_last_option
           (Sample.env Sample.two_items) 5 Sample.fresh
           Sample.two_questions Sample.fetched);
    [reflexivity | simpl; auto].
Defined.

(** C2, as stated, fails: asked for five questions, [fetch_questions] hands
    back as many as the response lists, here none. *)
Lemma fetch_count_counterexample :
  0 < 5 /\
  Py.getitem (Sample.response []) "results" = Ok (JArr []) /\
  fetch_questions (Sample.env []) 5 Sample.fresh = (Return [], Sample.fetched) /\
  ~ fetch_as_specified 5 [].
Proof.
  repeat split; try reflexivity.
  intros [Hlen _]; simpl in Hlen; discriminate.
Qed.

(** An empty correct answer is passed on as it comes. *)
Lemma fetch_keeps_an_empty_answer :
  exists q w',
    fetch_questions (Sample.env [Sample.item "?" "" ["a"; "b"; "c"]]) 1 Sample.fresh
      = (Return [q], w') /\
    correct q = JStr "".
Proof. eexists; eexists; split; reflexivity. Qed.

(** C2, amended: whatever [how_many] is, a response whose results are a
    list of well-formed items yields one question per item, in order, whose
    correct answer is the item's and is among the question's options. *)
Theorem fetch_returns_one_question_per_result :
  forall env how_many w data items,
    trivia env (requests w) = Ok data ->
    Py.getitem data "results" = Ok (JArr items) ->
    Forall well_formed_item items ->
    exists qs w',
      fetch_questions env how_many w = (Return qs, w') /\
      List.length qs = List.length items /\
      Forall2 (fun item q => Py.getitem item "correct_answer" = Ok (correct q))
              items qs /\
      Forall (fun q => In (correct q) (options q)) qs.
Proof.
  intros env how_many w data items Hdata Hres Hwf.
  destruct (organize_all_well_formed items [] Hwf) as (qs & Hqs).
  assert (Hrun : fetch_questions env how_many w =
                 (Return qs, snd (http_get env how_many w))).
  { unfold fetch_questions, bind, http_get, lift.
    rewrite Hdata; simpl.
    unfold questions_of_response; rewrite Hres; simpl.
    rewrite Hqs; reflexivity. }
  exists qs, (snd (http_get env how_many w)).
  split; [exact Hrun |].
  apply organize_all_Ok in Hqs; destruct Hqs as (new & -> & Hall); simpl.
  clear Hrun Hwf Hres.
  induction Hall as [| item q items qs Hq _ IH]; simpl.
  - repeat split; constructor.
  - destruct IH as (Hlen & Hc & Hin).
    apply organize_Ok in Hq; destruct Hq as (wrong & _ & Hcq & _ & _ & _ & Ho).
    repeat split.
    + now rewrite Hlen.
    + now constructor.
    + constructor; [| assumption].
      rewrite Ho; apply in_or_app; right; simpl; auto.
Qed.

Lemma fetch_returns_one_question_per_result_witness :
  trivia (Sample.env Sample.two_items) (requests Sample.fresh)
    = Ok (Sample.response Sample.two_items) /\
  Py.getitem (Sample.response Sample.two_items) "results"
    = Ok (JArr Sample.two_items) /\
  Forall well_formed_item Sample.two_items /\
  exists qs w',
    fetch_questions (Sample.env Sample.two_items) 7 Sample.fresh = (Return qs, w') /\
    List.length qs = List.length Sample.two_items /\
    Forall2 (fun item q => Py.getitem item "correct_answer" = Ok (correct q))
            Sample.two_items qs /\
    Forall (fun q => In (correct q) (options q)) qs.
Proof.
  assert (Hwf : Forall well_formed_item Sample.two_items).
  { repeat constructor; unfold well_formed_item;
      do 5 eexists; repeat split; reflexivity. }
  split; [reflexivity |].
  split; [reflexivity |].
  split; [exact Hwf |].
  apply (fetch_returns_one_question_per_result
           (Sample.env Sample.two_items) 7 Sample.fresh
           (Sample.response Sample.two_items) Sample.two_items);
    [reflexivity | reflexivity | exact Hwf].
Defined.

(** ** The credential *)






(** ** The history file *)

(** C7: without a history file the history is the empty list and nothing is
    raised; with a file that does not decode, loading raises the decoding
    error, and so does the run, before anything is shown; a file that decodes
    is taken as it is. *)
Theorem load_history_absent_or_malformed :
  forall jd jl env ui w,
    (log_file w = None -> load_history jl w = (Return (JArr []), w)) /\
    (forall content,
        log_file w = Some content -> jl content = None ->
        load_history jl w = (Raise JSONDecodeError, w) /\
        (Py.truthy (Py.or_ (environ_key env) (secrets_key env)) = true ->
         script jd jl env ui w = (Raise JSONDecodeError, w))) /\
    (forall content v,
        log_file w = Some content -> jl content = Some v ->
        load_history jl w = (Return v, w)).
Proof.
  intros jd jl env ui w; split; [| split].
  - intros H; unfold load_history, bind, get, ret; rewrite H; reflexivity.
  - intros content Hfile Hbad; split.
    + unfold load_history, bind, get, raise; rewrite Hfile, Hbad; reflexivity.
    + intros Hkey; unfold script, bind at 1, check_api_key.
      rewrite Hkey; simpl.
      unfold bind at 1, load_history, bind, get, raise, ret.
      rewrite Hfile, Hbad; reflexivity.
  - intros content v Hfile Hgood.
    unfold load_history, bind, get, ret; rewrite Hfile, Hgood; reflexivity.
Qed.

Lemma load_history_absent_or_malformed_witness :
  (log_file Sample.fresh = None /\
   load_history Codec.loads Sample.fresh = (Return (JArr []), Sample.fresh)) /\
  (log_file (Sample.with_log "{oops") = Some "{oops" /\
   Codec.loads "{oops" = None /\
   load_history Codec.loads (Sample.with_log "{oops")
     = (Raise JSONDecodeError, Sample.with_log "{oops") /\
   Sample.run (Sample.env Sample.two_items) Sample.idle (Sample.with_log "{oops")
     = (Raise JSONDecodeError, Sample.with_log "{oops")) /\
  (log_file (Sample.with_log "[]") = Some "[]" /\
   Codec.loads "[]" = Some (JArr []) /\
   load_history Codec.loads (Sample.with_log "[]")
     = (Return (JArr []), Sample.with_log "[]")).
Proof.
  pose proof (load_history_absent_or_malformed
                Codec.dumps Codec.loads (Sample.env Sample.two_items)
                Sample.idle Sample.fresh) as (Habsent & _ & _).
  pose proof (load_history_absent_or_malformed
                Codec.dumps Codec.loads (Sample.env Sample.two_items)
                Sample.idle (Sample.with_log "{oops")) as (_ & Hbad & _).
  pose proof (load_history_absent_or_malformed
                Codec.dumps Codec.loads (Sample.env Sample.two_items)
                Sample.idle (Sample.with_log "[]")) as (_ & _ & Hgood).
  split; [split; [reflexivity | apply Habsent; reflexivity] |].
  split.
  - destruct (Hbad "{oops" eq_refl eq_refl) as (Hload & Hrun).
    split; [reflexivity |]. split; [reflexivity |].
    split; [exact Hload | apply Hrun; reflexivity].
  - split; [reflexivity |]. split; [reflexivity |].
    apply (Hgood "[]" (JArr [])); reflexivity.
Defined.

(** C4: appending [e] to a history [old] writes the whole of [old ++ [e]]
    over the file, and a process that then starts on that file, the codec
    reading back what it wrote, loads [old ++ [e]]: [e] last, behind the
    earlier entries in their order. *)
Theorem history_round_trip :
  forall jd jl old e w,
    jl (jd (JArr (old ++ [e]))) = Some (JArr (old ++ [e])) ->
    exists w',
      record_answer jd (JArr old) e w = (Return (JArr (old ++ [e])), w') /\
      log_file w' = Some (jd (JArr (old ++ [e]))) /\
      forall later,
        log_file later = log_file w' ->
        exists entries,
          load_history jl later = (Return (JArr entries), later) /\
          last entries JNull = e /\
          removelast entries = old.
Proof.
  intros jd jl old e w Hcodec.
  eexists; split; [reflexivity |]; simpl.
  split; [reflexivity |].
  intros later Hlog; exists (old ++ [e]).
  unfold load_history, bind, get, ret.
  rewrite Hlog, Hcodec.
  split; [reflexivity |].
  split; [apply last_last | apply removelast_last].
Qed.

Lemma history_round_trip_witness :
  Codec.loads (Codec.dumps (JArr ([Sample.first_entry] ++ [Sample.second_entry])))
    = Some (JArr ([Sample.first_entry] ++ [Sample.second_entry])) /\
  exists w',
    record_answer Codec.dumps (JArr [Sample.first_entry]) Sample.second_entry
                  Sample.fresh
      = (Return (JArr ([Sample.first_entry] ++ [Sample.second_entry])), w') /\
    log_file w'
      = Some (Codec.dumps (JArr ([Sample.first_entry] ++ [Sample.second_entry]))) /\
    forall later,
      log_file later = log_file w' ->
      exists entries,
        load_history Codec.loads later = (Return (JArr entries), later) /\
        last entries JNull = Sample.second_entry /\
        removelast entries = [Sample.first_entry].
Proof.
  split; [vm_compute; reflexivity |].
  apply (history_round_trip Codec.dumps Codec.loads
           [Sample.first_entry] Sample.second_entry Sample.fresh).
  vm_compute; reflexivity.
Defined.

(** ** Submitting an answer *)

(** The session a completed submit leaves: one more answer, the next
    question, one more point when the choice is the correct answer. *)
Lemma index_in_range : forall (A : Type) (l : list A) i,
    0 <= i < Z.of_nat (List.length l) ->
    exists x, Py.index l i = Ok x /\ nth_error l (Z.to_nat i) = Some x.
Proof.
  intros A l i Hi; unfold Py.index.
  replace (i <? 0) with false by (symmetry; apply Z.ltb_ge; lia).
  replace (0 <=? i) with true by (symmetry; apply Z.leb_le; lia).
  replace (i <? Z.of_nat (List.length l)) with true
    by (symmetry; apply Z.ltb_lt; lia).
  simpl.
  destruct (nth_error l (Z.to_nat i)) as [x |] eqn:Hx.
  - exists x; auto.
  - apply nth_error_None in Hx; lia.
Qed.







(** ** Sequences of submits *)





(** ** The invariant of the session *)







(** A submit that the chat service cuts short is no submit operation: the
    run ends in the service's exception after the point and the answer have
    been entered and before the index moves. *)
Lemma interrupted_submit :
  exists w',
    Sample.run (Sample.env_chat_down Sample.two_items) (Sample.submit "4")
               Sample.started
      = (Raise (ExternalError "APIConnectionError"), w') /\
    session_state w'
      = Some {| questions := Sample.two_questions; current_question := 0;
                points := 1; user_answers := [JStr "4"] |} /\
    log_file w' = None.
Proof. eexists; split; [vm_compute; reflexivity | split; reflexivity]. Qed.

(** ** Rounding to nearest never passes a [float] *)

Lemma digits2_pos_size : forall p, digits2_pos p = Pos.size p.
Proof. induction p; simpl; congruence. Qed.

Lemma digits_lower : forall p, 2 ^ (Z.pos (digits2_pos p) - 1) <= Z.pos p.
Proof.
  intros p; rewrite digits2_pos_size.
  pose proof (Pos.size_le p) as H.
  apply Pos2Z.pos_le_pos in H; rewrite Pos2Z.inj_pow in H.
  replace (Z.pos (Pos.size p)) with (Z.pos (Pos.size p) - 1 + 1) in H by lia.
  rewrite Z.pow_add_r in H by lia.
  change (Z.pos p~0) with (2 * Z.pos p) in H. lia.
Qed.

(** The exponent a mantissa below [c * 2^(k - e)] is rounded at is at most
    [k], when [c] fits a mantissa. *)
Lemma fexp_bound : forall m e c k,
    0 <= m -> 0 < c < 2 ^ prec -> e <= k -> emin prec emax <= k ->
    m <= c * 2 ^ (k - e) ->
    fexp prec emax (Zdigits2 m + e) <= k.
Proof.
  intros m e c k Hm Hc He Hk Hle; unfold fexp.
  apply Z.max_lub; [| assumption].
  destruct m as [| p | p]; cbn [Zdigits2]; [unfold prec; lia | | lia].
  pose proof (digits_lower p) as Hd.
  assert (Hlt : 2 ^ (Z.pos (digits2_pos p) - 1) < 2 ^ (prec + (k - e))).
  { rewrite Z.pow_add_r by (unfold prec; lia).
    apply Z.le_lt_trans with (c * 2 ^ (k - e)); [lia |].
    apply Z.mul_lt_mono_pos_r; [apply Z.pow_pos_nonneg; lia | lia]. }
  apply Z.pow_lt_mono_r_iff in Hlt; unfold prec in *; lia.
Qed.

Lemma iter_pos_nat : forall (A : Type) (f : A -> A) p x,
    iter_pos f p x = Nat.iter (Pos.to_nat p) f x.
Proof.
  induction p as [p IH | p IH |]; intros x; cbn [iter_pos].
  - rewrite Pos2Nat.inj_xI, !IH.
    replace (S (2 * Pos.to_nat p)) with (S (Pos.to_nat p + Pos.to_nat p)) by lia.
    rewrite Nat.iter_succ_r, Nat.iter_add; reflexivity.
  - rewrite Pos2Nat.inj_xO, !IH.
    replace (2 * Pos.to_nat p)%nat with (Pos.to_nat p + Pos.to_nat p)%nat by lia.
    rewrite Nat.iter_add; reflexivity.
  - reflexivity.
Qed.

Lemma shr_1_spec : forall mrs,
    0 <= shr_m mrs ->
    shr_m (shr_1 mrs) = shr_m mrs / 2 /\
    shr_r (shr_1 mrs) = Z.odd (shr_m mrs) /\
    shr_s (shr_1 mrs) = orb (shr_r mrs) (shr_s mrs).
Proof.
  intros [m r s]; simpl; intros Hm.
  rewrite <- Z.div2_div.
  destruct m as [| [p | p |] | p]; simpl; auto; lia.
Qed.

(** [n] halvings of a mantissa: the quotient by [2^n], and no flag raised
    when nothing is shifted out and none was raised before. *)
Lemma shr_iter_spec : forall n mrs,
    0 <= shr_m mrs ->
    shr_m (Nat.iter n shr_1 mrs) = shr_m mrs / 2 ^ Z.of_nat n /\
    (shr_m mrs mod 2 ^ Z.of_nat n = 0 ->
     shr_r mrs = false -> shr_s mrs = false ->
     shr_r (Nat.iter n shr_1 mrs) = false /\
     shr_s (Nat.iter n shr_1 mrs) = false).
Proof.
  induction n as [| n IH]; intros mrs Hm.
  - simpl; rewrite Z.div_1_r; auto.
  - destruct (IH mrs Hm) as (IHm & IHflags).
    assert (Hpos : 0 < 2 ^ Z.of_nat n) by (apply Z.pow_pos_nonneg; lia).
    assert (Hm' : 0 <= shr_m (Nat.iter n shr_1 mrs))
      by (rewrite IHm; apply Z.div_pos; lia).
    destruct (shr_1_spec _ Hm') as (H1 & H2 & H3).
    rewrite Nat2Z.inj_succ, Z.pow_succ_r by lia.
    simpl Nat.iter; split.
    + rewrite H1, IHm, Z.div_div by lia.
      f_equal; lia.
    + intros Hmod Hr Hs.
      assert (Hdiv : shr_m mrs = 2 ^ Z.of_nat n * (2 * (shr_m mrs / (2 * 2 ^ Z.of_nat n)))).
      { pose proof (Z.div_mod (shr_m mrs) (2 * 2 ^ Z.of_nat n)); lia. }
      assert (Hmodn : shr_m mrs mod 2 ^ Z.of_nat n = 0).
      { rewrite Hdiv, Z.mul_comm; apply Z.mod_mul; lia. }
      destruct (IHflags Hmodn Hr Hs) as (Hr' & Hs').
      rewrite H2, H3, Hr', Hs', IHm; split; [| reflexivity].
      rewrite Hdiv at 1.
      rewrite Z.mul_comm, Z.div_mul by lia.
      rewrite Z.odd_mul; reflexivity.
Qed.

Lemma record_of_loc_spec : forall m l,
    shr_m (shr_record_of_loc m l) = m /\
    loc_of_shr_record (shr_record_of_loc m l) = l.
Proof. intros m [| []]; simpl; auto. Qed.

Lemma shr_fexp_below : forall c k m e l,
    0 < c < 2 ^ prec -> emin prec emax <= k ->
    below c k m e l ->
    below c k (shr_m (fst (shr_fexp prec emax m e l)))
          (snd (shr_fexp prec emax m e l))
          (loc_of_shr_record (fst (shr_fexp prec emax m e l))).
Proof.
  intros c k m e l Hc Hk (Hm & He & Hle & Hex).
  pose proof (fexp_bound m e c k Hm Hc He Hk Hle) as Hf.
  unfold shr_fexp, shr.
  destruct (record_of_loc_spec m l) as (Hrm & Hrl).
  destruct (fexp prec emax (Zdigits2 m + e) - e) as [| n | n] eqn:Hn; simpl;
    try (rewrite Hrm, Hrl; repeat split; assumption).
  rewrite iter_pos_nat.
  assert (Hm0 : 0 <= shr_m (shr_record_of_loc m l)) by (rewrite Hrm; assumption).
  destruct (shr_iter_spec (Pos.to_nat n) _ Hm0) as (Hq & Hflags).
  rewrite positive_nat_Z, Hrm in Hq, Hflags.
  assert (Hpos : 0 < 2 ^ Z.pos n) by (apply Z.pow_pos_nonneg; lia).
  assert (Hsplit : c * 2 ^ (k - e) = c * 2 ^ (k - (e + Z.pos n)) * 2 ^ Z.pos n).
  { rewrite <- Z.mul_assoc, <- Z.pow_add_r by lia. do 2 f_equal; lia. }
  rewrite Hq; repeat split.
  - apply Z.div_pos; lia.
  - lia.
  - apply Z.div_le_upper_bound; lia.
  - intros Heq.
    pose proof (Z.div_mod m (2 ^ Z.pos n)) as Hdm.
    pose proof (Z.mod_pos_bound m (2 ^ Z.pos n) Hpos) as Hmod.
    assert (Hmeq : m = c * 2 ^ (k - e)) by nia.
    assert (Hzero : m mod 2 ^ Z.pos n = 0) by nia.
    specialize (Hex Hmeq); subst l.
    destruct (Hflags Hzero eq_refl eq_refl) as (Hr & Hs).
    destruct (Nat.iter (Pos.to_nat n) shr_1 (shr_record_of_loc m loc_Exact))
      as [m' r' s']; simpl in *; subst; reflexivity.
Qed.

Lemma round_nearest_even_below : forall K m l,
    m <= K -> (m = K -> l = loc_Exact) ->
    m <= round_nearest_even m l <= K.
Proof.
  intros K m l Hle Hex; unfold round_nearest_even.
  destruct l as [| []]; try destruct (Z.even m);
    try lia; (assert (m <> K) by (intros E; specialize (Hex E); discriminate); lia).
Qed.

(** Rounding a quantity that is at most [c * 2^k] gives zero or a finite
    [float] of the same sign that is at most [c * 2^k]. *)
Lemma binary_round_aux_below : forall s c k m e l,
    0 < c < 2 ^ prec -> emin prec emax <= k <= emax - prec ->
    below c k m e l ->
    match binary_round_aux prec emax s m e l with
    | S754_zero s' => s' = s
    | S754_finite s' m' e' =>
        s' = s /\ e' <= k /\ Z.pos m' <= c * 2 ^ (k - e')
    | _ => False
    end.
Proof.
  intros s c k m e l Hc Hk Hb.
  unfold binary_round_aux.
  pose proof (shr_fexp_below c k m e l Hc (proj1 Hk) Hb) as H1.
  destruct (shr_fexp prec emax m e l) as (mrs1, e1); simpl in H1.
  destruct H1 as (Hm1 & He1 & Hle1 & Hex1).
  pose proof (round_nearest_even_below (c * 2 ^ (k - e1)) (shr_m mrs1)
                (loc_of_shr_record mrs1) Hle1 Hex1) as Hr.
  assert (H2 : below c k (round_nearest_even (shr_m mrs1) (loc_of_shr_record mrs1))
                     e1 loc_Exact)
    by (repeat split; (lia || auto)).
  apply (shr_fexp_below c k _ _ _ Hc (proj1 Hk)) in H2.
  destruct (shr_fexp prec emax _ e1 loc_Exact) as (mrs2, e2); simpl in H2.
  destruct H2 as (Hm2 & He2 & Hle2 & _).
  destruct (shr_m mrs2) as [| m2 | m2]; [reflexivity | | lia].
  replace (e2 <=? emax - prec) with true by (symmetry; apply Z.leb_le; lia).
  auto.
Qed.

Lemma new_location_zero : forall n, new_location n 0 = loc_Exact.
Proof.
  intros n; unfold new_location, new_location_even, new_location_odd.
  destruct (Z.even n); reflexivity.
Qed.

(** [p / q] for [p <= q]: zero or a finite [float], at most 1. *)
Lemma div_at_most_one : forall p q : positive,
    (p <= q)%positive ->
    match SFdiv prec emax (S754_finite false p 0) (S754_finite false q 0) with
    | S754_zero s => s = false
    | S754_finite s m e => s = false /\ e <= 0 /\ Z.pos m <= 2 ^ (- e)
    | _ => False
    end.
Proof.
  intros p q Hpq.
  unfold SFdiv, SFdiv_core_binary.
  set (e' := Z.min (fexp prec emax (Zdigits2 (Z.pos p) + 0 - (Zdigits2 (Z.pos q) + 0)))
                   (0 - 0)).
  assert (He' : e' <= 0) by (unfold e'; apply Z.le_min_r).
  set (m' := match 0 - 0 - e' with
             | 0 => Z.pos p
             | Z.pos _ => Z.shiftl (Z.pos p) (0 - 0 - e')
             | Z.neg _ => 0
             end).
  assert (Hm' : m' = Z.pos p * 2 ^ (- e')).
  { unfold m'; replace (0 - 0 - e') with (- e') by lia.
    destruct (- e') as [| n | n] eqn:Hn; [simpl; lia | | lia].
    rewrite Z.shiftl_mul_pow2 by lia; reflexivity. }
  assert (Hpow : 0 < 2 ^ (- e')) by (apply Z.pow_pos_nonneg; lia).
  assert (Heucl : Z.div_eucl m' (Z.pos q) = (m' / Z.pos q, m' mod Z.pos q))
    by (unfold Z.div, Z.modulo; destruct (Z.div_eucl m' (Z.pos q)); reflexivity).
  rewrite Heucl.
  set (quot := m' / Z.pos q); set (r := m' mod Z.pos q).
  assert (Hmono : Z.pos p * 2 ^ (- e') <= Z.pos q * 2 ^ (- e'))
    by (apply Z.mul_le_mono_nonneg_r; lia).
  assert (Hb : below 1 0 quot e' (new_location (Z.pos q) r)).
  { assert (Hq0 : 0 <= quot) by (apply Z.div_pos; lia).
    assert (Hle : quot <= 1 * 2 ^ (0 - e')).
    { replace (0 - e') with (- e') by lia; rewrite Z.mul_1_l.
      apply Z.div_le_upper_bound; lia. }
    repeat split; try assumption.
    intros Heq; replace (0 - e') with (- e') in Heq by lia.
    assert (Hr : r = 0).
    { pose proof (Z.div_mod m' (Z.pos q)) as Hdm.
      pose proof (Z.mod_pos_bound m' (Z.pos q) (Pos2Z.is_pos q)) as Hmod.
      fold quot in Hdm; fold r in Hdm, Hmod.
      rewrite Heq, Z.mul_1_l in Hdm; lia. }
    rewrite Hr; apply new_location_zero. }
  pose proof (binary_round_aux_below (xorb false false) 1 0 quot e'
                (new_location (Z.pos q) r)) as Hround.
  assert (Hc : 0 < 1 < 2 ^ prec) by (unfold prec; simpl; lia).
  assert (Hk : emin prec emax <= 0 <= emax - prec)
    by (unfold emin, prec, emax; lia).
  specialize (Hround Hc Hk Hb).
  destruct (binary_round_aux prec emax (xorb false false) quot e'
              (new_location (Z.pos q) r)); try assumption.
  destruct Hround as (Hs & He & Hm); repeat split; try assumption.
  replace (- e) with (0 - e) by lia; lia.
Qed.

Lemma float_100 :
  Py.float_of_int 100 = S754_finite false 7036874417766400 (-46).
Proof. reflexivity. Qed.

(** [x * 100] for [x] at most 1: zero or a finite [float], at most 100. *)
Lemma times_100_at_most_100 : forall m e,
    e <= 0 -> Z.pos m <= 2 ^ (- e) ->
    match Py.mul_int (S754_finite false m e) 100 with
    | S754_zero s => s = false
    | S754_finite s m' e' => s = false /\ e' <= 2 /\ Z.pos m' <= 25 * 2 ^ (2 - e')
    | _ => False
    end.
Proof.
  intros m e He Hm.
  unfold Py.mul_int; rewrite float_100; unfold SFmul.
  apply binary_round_aux_below.
  - unfold prec; simpl; lia.
  - unfold emin, prec, emax; lia.
  - repeat split; try lia.
    rewrite Pos2Z.inj_mul.
    replace (2 - (e + -46)) with (48 + - e) by lia.
    rewrite Z.pow_add_r by lia.
    change (Z.pos 7036874417766400) with (25 * 2 ^ 48).
    assert (0 < 2 ^ 48) by (apply Z.pow_pos_nonneg; lia).
    nia.
Qed.

(** The value of a finite [float] that is at most [100]. *)
Lemma value_at_most_100 : forall m e,
    e <= 2 -> Z.pos m <= 25 * 2 ^ (2 - e) ->
    exists v, float_value (S754_finite false m e) = Some v /\
              (0 <= v <= 100)%Q.
Proof.
  intros m e He Hm; unfold float_value.
  destruct (0 <=? e) eqn:Hsign; eexists; (split; [reflexivity |]).
  - apply Z.leb_le in Hsign.
    assert (Hp : 0 < 2 ^ e) by (apply Z.pow_pos_nonneg; lia).
    assert (H4 : 2 ^ (2 - e) * 2 ^ e = 4)
      by (rewrite <- Z.pow_add_r by lia; replace (2 - e + e) with 2 by lia;
          reflexivity).
    unfold Qle; cbn [Qnum Qden inject_Z]; split; nia.
  - apply Z.leb_gt in Hsign.
    assert (Hp : 0 < 2 ^ (- e)) by (apply Z.pow_pos_nonneg; lia).
    assert (H4 : 2 ^ (2 - e) = 4 * 2 ^ (- e))
      by (replace (2 - e) with (2 + - e) by lia; rewrite Z.pow_add_r by lia;
          reflexivity).
    unfold Qle; cbn [Qnum Qden]; rewrite Z2Pos.id by assumption; split; nia.
Qed.

(** A score between 0 and the number of questions, of which there is at
    least one: the percentage is computed, and lies between 0 and 100. *)
Lemma percentage_in_range : forall score len,
    0 <= score <= len -> 0 < len ->
    exists p v,
      percentage score len = Ok p /\
      float_value p = Some v /\
      (0 <= v <= 100)%Q.
Proof.
  intros score len Hs Hl; unfold percentage.
  destruct len as [| q | q]; try lia.
  destruct score as [| p | p]; try lia.
  - exists (S754_zero false), (0 # 1).
    split; [reflexivity | split; [reflexivity | split; discriminate]].
  - assert (Hpq : (p <= q)%positive) by lia.
    pose proof (div_at_most_one p q Hpq) as Hdiv.
    unfold Py.true_div.
    destruct (SFdiv prec emax (S754_finite false p 0) (S754_finite false q 0))
      as [s | s | | s m e]; try contradiction.
    + subst s.
      exists (S754_zero false), (0 # 1).
      split; [reflexivity | split; [reflexivity | split; discriminate]].
    + destruct Hdiv as (-> & He & Hm); unfold obind; cbv beta iota.
      pose proof (times_100_at_most_100 m e He Hm) as Hmul.
      destruct (Py.mul_int (S754_finite false m e) 100)
        as [s' | s' | | s' m' e']; try contradiction.
      * subst s'; exists (S754_zero false), (0 # 1).
        split; [reflexivity | split; [reflexivity | split; discriminate]].
      * destruct Hmul as (-> & He' & Hm').
        destruct (value_at_most_100 m' e' He' Hm') as (v & Hv & Hrange).
        exists (S754_finite false m' e'), v; auto.
Qed.
(** ** The percentage *)

(** C6, as stated, fails: 7 right answers out of 25 are 28 percent, and the
    script computes the [float] next above 28. *)
Lemma percentage_not_exact_counterexample :
  0 <= 7 <= 25 /\
  exists p v,
    percentage 7 25 = Ok p /\
    float_value p = Some v /\
    ~ (v == (7 # 25) * 100)%Q.
Proof.
  split; [lia |].
  exists (S754_finite false 7881299347898369 (-48)).
  exists (7881299347898369 # 281474976710656).
  split; [vm_compute; reflexivity |].
  split; [vm_compute; reflexivity |].
  vm_compute; discriminate.
Qed.

Lemma percentage_of_five : forall score,
    0 <= score <= 5 ->
    percentage score 5 = Ok (Py.float_of_int (20 * score)).
Proof.
  intros score H.
  assert (Hcases : score = 0 \/ score = 1 \/ score = 2 \/ score = 3 \/
                   score = 4 \/ score = 5) by lia.
  destruct Hcases as [-> | [-> | [-> | [-> | [-> | ->]]]]];
    vm_compute; reflexivity.
Qed.

(** C6, amended: the percentage is the [float] product by 100 of the [float]
    quotient of score by length; for a score between 0 and the length it
    lies between 0 and 100; over five questions it is 20 times the score
    exactly, shown as 100 for five right answers and as 40 for two. *)
Theorem percentage_between_0_and_100 :
  forall score len,
    0 <= score <= len -> 0 < len ->
    exists ratio p v,
      Py.true_div score len = Ok ratio /\
      percentage score len = Ok p /\
      p = Py.mul_int ratio 100 /\
      float_value p = Some v /\
      (0 <= v <= 100)%Q /\
      (len = 5 ->
       (v == (score # 5) * 100)%Q /\
       Py.round_half_even p = Some (20 * score)).
Proof.
  intros score len Hs Hl.
  destruct (percentage_in_range score len Hs Hl) as (p & v & Hp & Hv & Hrange).
  unfold percentage in Hp.
  apply obind_Ok in Hp; destruct Hp as (ratio & Hratio & Hp).
  injection Hp as <-.
  exists ratio, (Py.mul_int ratio 100), v.
  split; [assumption |].
  split; [unfold percentage; rewrite Hratio; reflexivity |].
  split; [reflexivity |].
  split; [assumption |].
  split; [assumption |].
  intros ->.
  assert (Hp5 := percentage_of_five score Hs).
  unfold percentage in Hp5; rewrite Hratio in Hp5; unfold obind in Hp5.
  injection Hp5 as Hp5; rewrite Hp5 in Hv |- *.
  assert (Hcases : score = 0 \/ score = 1 \/ score = 2 \/ score = 3 \/
                   score = 4 \/ score = 5) by lia.
  destruct Hcases as [-> | [-> | [-> | [-> | [-> | ->]]]]];
    vm_compute in Hv; injection Hv as <-; split; vm_compute; reflexivity.
Qed.

Lemma percentage_between_0_and_100_witness :
  0 <= 2 <= 5 /\ 0 < 5 /\
  exists ratio p v,
    Py.true_div 2 5 = Ok ratio /\
    percentage 2 5 = Ok p /\
    p = Py.mul_int ratio 100 /\
    float_value p = Some v /\
    (0 <= v <= 100)%Q /\
    (5 = 5 ->
     (v == (2 # 5) * 100)%Q /\
     Py.round_half_even p = Some (20 * 2)).
Proof.
  split; [lia |]. split; [lia |].
  apply (percentage_between_0_and_100 2 5); lia.
Defined.

(** The two scenarios of the specification, as the results page shows
    them. *)
Example five_of_five :
  exists p, percentage 5 5 = Ok p /\ Py.round_half_even p = Some 100.
Proof.
  exists (Py.float_of_int 100); split; vm_compute; reflexivity.
Qed.

Example two_of_five :
  exists p, percentage 2 5 = Ok p /\ Py.round_half_even p = Some 40.
Proof.
  exists (Py.float_of_int 40); split; vm_compute; reflexivity.
Qed.

(** ** The results page *)

(** C3, as stated, fails: the trivia service answers the request for five
    questions with an empty list, the quiz is COMPLETE at once with no
    question, and the results page divides by zero. *)
Lemma empty_quiz_counterexample :
  Sample.run (Sample.env []) Sample.idle Sample.fresh
    = (Raise ZeroDivisionError, Sample.empty_quiz) /\
  In (HttpGet 5) (page Sample.empty_quiz) /\
  session_state Sample.empty_quiz = Some (new_session []) /\
  complete (new_session []) /\
  total (new_session []) = 0.
Proof.
  split; [vm_compute; reflexivity |].
  split; [vm_compute; auto |].
  split; [vm_compute; reflexivity |].
  split; reflexivity.
Qed.

(** With no question the results page raises [ZeroDivisionError] after the
    score has been shown, the session left as it was. *)
Lemma results_page_without_questions : forall env ui w s,
    session_state w = Some s ->
    total s = 0 ->
    exists w',
      results_page env ui (total s) w = (Raise ZeroDivisionError, w') /\
      session_state w' = Some s.
Proof.
  intros env ui w s Hs Hzero; rewrite Hzero.
  unfold_script; simpl; rewrite Hs; simpl.
  destruct (points s); simpl; eexists; split; reflexivity.
Qed.

(** C3, amended: on the results page of a quiz with at least one question
    and a score between 0 and their number, the percentage is computed
    without an exception, as the [float] score / length * 100, and that is
    what the page shows. *)
Theorem results_page_percentage :
  forall env ui w s,
    session_state w = Some s ->
    complete s ->
    0 <= points s <= total s ->
    0 < total s ->
    exists ratio p,
      Py.true_div (points s) (total s) = Ok ratio /\
      p = Py.mul_int ratio 100 /\
      percentage (points s) (total s) = Ok p /\
      forall o w',
        results_page env ui (total s) w = (o, w') ->
        In (percentage_line p) (page w').
Proof.
  intros env ui w s Hs Hdone Hpts Hlen.
  destruct (percentage_in_range (points s) (total s) Hpts Hlen)
    as (p & v & Hp & _).
  pose proof Hp as Hp'.
  unfold percentage in Hp'.
  apply obind_Ok in Hp'; destruct Hp' as (ratio & Hratio & Hmul).
  injection Hmul as Hmul.
  exists ratio, p; repeat split; auto.
  intros o w'.
  unfold_script; simpl; rewrite Hs; simpl; rewrite Hp; simpl.
  repeat next_case; intros H; injection H as _ <-; simpl;
    unfold percentage_line; rewrite !in_app_iff; simpl; auto 20.
Qed.

Lemma results_page_percentage_witness :
  let w := Sample.two_of_five_done in
  let s := {| questions := Sample.five_questions; current_question := 5;
              points := 2;
              user_answers := [JStr "4"; JStr "Rome"; JStr "4"; JStr "Rome";
                               JStr "3"] |} in
  session_state w = Some s /\
  complete s /\
  0 <= points s <= total s /\
  0 < total s /\
  exists ratio p,
    Py.true_div (points s) (total s) = Ok ratio /\
    p = Py.mul_int ratio 100 /\
    percentage (points s) (total s) = Ok p /\
    forall o w',
      results_page (Sample.env Sample.two_items) Sample.idle (total s) w = (o, w') ->
      In (percentage_line p) (page w').
Proof.
  intros w s.
  assert (Hpts : 0 <= points s <= total s) by (vm_compute; split; discriminate).
  assert (Hlen : 0 < total s) by reflexivity.
  split; [reflexivity |].
  split; [reflexivity |].
  split; [exact Hpts |].
  split; [exact Hlen |].
  exact (results_page_percentage
           (Sample.env Sample.two_items) Sample.idle w s
           eq_refl eq_refl Hpts Hlen).
Defined.

(** * Further properties of the script *)

(** ** Fetching: items that cannot be read *)

Lemma organize_fails : forall item,
    ~ well_formed_item item -> exists e, organize item = Error e.
Proof.
  intros item Hbad.
  destruct (organize item) as [q | e] eqn:Hq; [| exists e; reflexivity].
  exfalso; apply Hbad.
  apply organize_Ok in Hq.
  destruct Hq as (wrong & Hw & Hc & Hqt & Hcat & Hdif & _).
  exists (question q), (correct q), wrong, (category q), (difficulty q); auto.
Qed.

Lemma organize_all_fails : forall good bad rest acc e,
    Forall well_formed_item good ->
    organize bad = Error e ->
    organize_all (good ++ bad :: rest) acc = Error e.
Proof.
  induction good as [| item good IH]; simpl; intros bad rest acc e Hgood Hbad.
  - rewrite Hbad; reflexivity.
  - inversion Hgood as [| ? ? Hitem Hrest]; subst.
    destruct (organize_well_formed item Hitem) as (q & ->); simpl.
    apply IH; assumption.
Qed.

(** X1: one item that lacks an entry, or whose incorrect answers are not a
    list, makes the whole fetch raise: the questions of the items before it
    are not returned, and the session is left as it was. *)
Theorem fetch_is_all_or_nothing :
  forall env how_many w data good bad rest,
    trivia env (requests w) = Ok data ->
    Py.getitem data "results" = Ok (JArr (good ++ bad :: rest)) ->
    Forall well_formed_item good ->
    ~ well_formed_item bad ->
    exists e w',
      organize bad = Error e /\
      fetch_questions env how_many w = (Raise e, w') /\
      session_state w' = session_state w /\
      requests w' = S (requests w).
Proof.
  intros env how_many w data good bad rest Hdata Hres Hgood Hbad.
  destruct (organize_fails bad Hbad) as (e & He).
  exists e; eexists; split; [exact He |].
  unfold fetch_questions, bind, http_get, lift.
  rewrite Hdata; simpl.
  unfold questions_of_response; rewrite Hres; simpl.
  rewrite (organize_all_fails good bad rest [] e Hgood He).
  repeat split; reflexivity.
Qed.

Lemma fetch_is_all_or_nothing_witness :
  let items := Sample.two_items ++ Sample.item_without_category :: [] in
  trivia (Sample.env items) (requests Sample.fresh) = Ok (Sample.response items) /\
  Py.getitem (Sample.response items) "results" = Ok (JArr items) /\
  Forall well_formed_item Sample.two_items /\
  ~ well_formed_item Sample.item_without_category /\
  exists e w',
    organize Sample.item_without_category = Error e /\
    fetch_questions (Sample.env items) 5 Sample.fresh = (Raise e, w') /\
    session_state w' = session_state Sample.fresh /\
    requests w' = S (requests Sample.fresh).
Proof.
  intros items.
  assert (Hgood : Forall well_formed_item Sample.two_items).
  { repeat constructor; unfold well_formed_item;
      do 5 eexists; repeat split; reflexivity. }
  assert (Hbad : ~ well_formed_item Sample.item_without_category).
  { intros (q & c & wrong & cat & dif & _ & _ & _ & Hcat & _); discriminate. }
  split; [reflexivity |]. split; [reflexivity |].
  split; [exact Hgood |]. split; [exact Hbad |].
  apply (fetch_is_all_or_nothing (Sample.env items) 5 Sample.fresh
           (Sample.response items) Sample.two_items
           Sample.item_without_category []);
    [reflexivity | reflexivity | exact Hgood | exact Hbad].
Defined.

(** ** Fetching: responses that cannot be read *)


Lemma fetch_questions_run : forall env how_many w,
    fetch_questions env how_many w
    = (match (let* data := trivia env (requests w) in questions_of_response data) with
       | Ok qs => Return qs
       | Error e => Raise e
       end,
       snd (http_get env how_many w)).
Proof.
  intros env how_many w; unfold fetch_questions, bind, http_get, lift.
  destruct (trivia env (requests w)) as [data | e]; simpl; [| reflexivity].
  destruct (questions_of_response data); reflexivity.
Qed.

(** X2: what [fetch_questions] makes of a response it cannot use.  A failure
    of the request is raised as it is; a body that is not an object raises
    [TypeError], one without ["results"] raises [KeyError]; results that are
    null, a boolean or a number raise [TypeError], and so do a non-empty
    string and a non-empty object; an empty string and an empty object pass
    for an empty list of questions. *)
Theorem fetch_of_an_unusable_response :
  forall env how_many w,
    let after := snd (http_get env how_many w) in
    (forall e, trivia env (requests w) = Error e ->
               fetch_questions env how_many w = (Raise e, after)) /\
    (forall data, trivia env (requests w) = Ok data ->
       ((forall d, data <> JObj d) ->
        fetch_questions env how_many w = (Raise TypeError, after)) /\
       (forall d, data = JObj d -> Py.lookup "results" d = None ->
        fetch_questions env how_many w = (Raise (KeyError "results"), after)) /\
       (forall r, Py.getitem data "results" = Ok r ->
          match r with
          | JArr _ => True
          | JStr EmptyString | JObj [] =>
              fetch_questions env how_many w = (Return [], after)
          | _ => fetch_questions env how_many w = (Raise TypeError, after)
          end)).
Proof.
  intros env how_many w after; unfold after; split.
  - intros e He; rewrite fetch_questions_run, He; reflexivity.
  - intros data Hdata; rewrite fetch_questions_run, Hdata; simpl.
    unfold questions_of_response; split; [| split].
    + intros Hnot; destruct data; try reflexivity.
      exfalso; apply (Hnot fields); reflexivity.
    + intros d -> Hnone; simpl; rewrite Hnone; reflexivity.
    + intros r Hr; rewrite Hr; simpl.
      destruct r as [| b | n | f | s | l | d]; try reflexivity; try exact I.
      * destruct s; reflexivity.
      * destruct d as [| [k v] d]; reflexivity.
Qed.

Lemma fetch_of_an_unusable_response_witness :
  let env := Sample.env_no_results_entry in
  trivia env (requests Sample.fresh) = Ok (JObj [("response_code", JInt 5)]) /\
  Py.lookup "results" [("response_code", JInt 5)] = None /\
  fetch_questions env 5 Sample.fresh
    = (Raise (KeyError "results"), snd (http_get env 5 Sample.fresh)).
Proof.
  intros env.
  split; [reflexivity |]. split; [reflexivity |].
  destruct (fetch_of_an_unusable_response env 5 Sample.fresh) as (_ & Hbody).
  destruct (Hbody (JObj [("response_code", JInt 5)]) eq_refl) as (_ & Hkey & _).
  apply (Hkey [("response_code", JInt 5)]); reflexivity.
Defined.

(** ** The first run of a session *)

Lemma load_history_value : forall jl w v,
    load_history jl w = (Return v, w) ->
    (log_file w = None /\ v = JArr []) \/
    (exists content, log_file w = Some content /\ jl content = Some v).
Proof.
  unfold load_history, bind, get, ret, raise; intros jl w v H.
  destruct (log_file w) as [content |].
  - right; exists content; split; [reflexivity |].
    destruct (jl content); [injection H as -> | discriminate]; reflexivity.
  - left; injection H as <-; auto.
Qed.



(** ** Runs that only render *)

(** X4: over a session that is set up, a run in which the button of the
    page shown is not clicked (Submit over a quiz in progress, Start New
    Quiz over a finished one) changes neither the session nor the history
    file, sends no request to either service, and does not ask for a rerun,
    however it ends.  In particular Submit does nothing once the quiz is
    finished. *)
Theorem rendering_changes_nothing :
  forall jd jl env ui w s o w',
    session_state w = Some s ->
    (current_question s < total s -> submit_clicked ui = false) ->
    (total s <= current_question s -> new_quiz_clicked ui = false) ->
    script jd jl env ui w = (o, w') ->
    session_state w' = Some s /\
    log_file w' = log_file w /\
    requests w' = requests w /\
    completions w' = completions w /\
    o <> Rerun.
Proof.
  intros jd jl env ui w s o w' Hs Hsub Hnew.
  unfold total in *.
  destruct (current_question s <? Z.of_nat (List.length (questions s))) eqn:Hlt.
  - assert (Hclick : submit_clicked ui = false)
      by (apply Hsub; apply Z.ltb_lt; assumption).
    unfold_script; simpl.
    repeat (rewrite ?Hs, ?Hlt, ?Hclick; simpl; try next_case);
      intros H; injection H as <- <-; simpl;
      repeat split; auto; discriminate.
  - assert (Hclick : new_quiz_clicked ui = false)
      by (apply Hnew; apply Z.ltb_ge; assumption).
    unfold_script; simpl.
    repeat (rewrite ?Hs, ?Hlt, ?Hclick; simpl; try next_case);
      intros H; injection H as <- <-; simpl;
      repeat split; auto; discriminate.
Qed.

Lemma rendering_changes_nothing_witness :
  let s := new_session Sample.two_questions in
  let ui := Sample.stray_click in
  session_state Sample.started = Some s /\
  (current_question s < total s -> submit_clicked ui = false) /\
  (total s <= current_question s -> new_quiz_clicked ui = false) /\
  script Codec.dumps Codec.loads (Sample.env Sample.two_items) ui
         Sample.started
    = (Return tt, Sample.rendered) /\
  session_state Sample.rendered = Some s /\
  log_file Sample.rendered = log_file Sample.started /\
  requests Sample.rendered = requests Sample.started /\
  completions Sample.rendered = completions Sample.started /\
  Return tt <> @Rerun unit.
Proof.
  intros s ui.
  assert (H1 : current_question s < total s -> submit_clicked ui = false)
    by reflexivity.
  assert (H2 : total s <= current_question s -> new_quiz_clicked ui = false)
    by (unfold total; simpl; lia).
  assert (Hrun : script Codec.dumps Codec.loads (Sample.env Sample.two_items) ui
         Sample.started
                 = (Return tt, Sample.rendered))
    by (vm_compute; reflexivity).
  split; [reflexivity |]. split; [exact H1 |]. split; [exact H2 |].
  split; [exact Hrun |].
  exact (rendering_changes_nothing
           Codec.dumps Codec.loads (Sample.env Sample.two_items) ui
           Sample.started s (Return tt) Sample.rendered
           eq_refl H1 H2 Hrun).
Defined.

(** ** What a run may do to the history file *)

(** X5: a run either leaves the history file as it found it, or it is a
    submit that reached its rerun and the file then holds the history that
    was loaded followed by one entry for the choice submitted.  Nothing is
    ever removed from the history, by any run, however it ends. *)
Theorem history_file_only_grows :
  forall jd jl env ui w o w',
    script jd jl env ui w = (o, w') ->
    log_file w' = log_file w \/
    (o = Rerun /\ submit_clicked ui = true /\
     exists h q explanation,
       load_history jl w = (Return (JArr h), w) /\
       log_file w'
       = Some (jd (JArr (h ++ [history_entry q (user_choice ui) explanation])))).
Proof.
  intros jd jl env ui w o w'.
  unfold_script; simpl.
  repeat next_case; intros H; injection H as <- <-; simpl;
    try (left; first [reflexivity | assumption]).
  all: right; try list_history.
  all: split; [reflexivity |]; split; [reflexivity |];
    do 3 eexists; split; reflexivity.
Qed.

Lemma history_file_only_grows_witness :
  script Codec.dumps Codec.loads (Sample.env Sample.two_items)
         (Sample.submit "4") Sample.started
    = (Rerun, Sample.after_one) /\
  (log_file Sample.after_one = log_file Sample.started \/
   (@Rerun unit = Rerun /\ submit_clicked (Sample.submit "4") = true /\
    exists h q explanation,
      load_history Codec.loads Sample.started = (Return (JArr h), Sample.started) /\
      log_file Sample.after_one
      = Some (Codec.dumps
                (JArr (h ++ [history_entry q (user_choice (Sample.submit "4"))
                                           explanation]))))).
Proof.
  assert (Hrun : script Codec.dumps Codec.loads (Sample.env Sample.two_items)
                        (Sample.submit "4") Sample.started
                 = (Rerun, Sample.after_one))
    by (vm_compute; reflexivity).
  split; [exact Hrun |].
  exact (history_file_only_grows
           Codec.dumps Codec.loads (Sample.env Sample.two_items)
           (Sample.submit "4") Sample.started Rerun Sample.after_one Hrun).
Defined.

(** X6: a submit operation sends one explanation request and no trivia
    request, and leaves in the history file the history it loaded followed
    by one entry that holds the text of the current question, the choice
    submitted, the correct answer and the explanation as the chat service
    gave it. *)
Theorem completed_submit_is_logged :
  forall jd jl env ui w w',
    submit_run jd jl env ui w w' ->
    exists s q h explanation,
      session_state w = Some s /\
      nth_error (questions s) (Z.to_nat (current_question s)) = Some q /\
      load_history jl w = (Return (JArr h), w) /\
      completion env (completions w) = Ok explanation /\
      log_file w'
      = Some (jd (JArr (h ++ [JObj [("question", question q);
                                    ("your_answer", user_choice ui);
                                    ("correct_answer", correct q);
                                    ("explanation", explanation)]]))) /\
      completions w' = S (completions w) /\
      requests w' = requests w.
Proof.
  intros jd jl env ui w w' ((s & Hs & Hin) & Hclick & Hrun).
  destruct (index_in_range _ (questions s) _ Hin) as (q & Hq & Hnth).
  exists s, q.
  revert Hrun.
  assert (Hlt : (current_question s <? Z.of_nat (List.length (questions s))) = true)
    by (apply Z.ltb_lt; apply Hin).
  unfold_script; simpl.
  repeat (rewrite ?Hs, ?Hlt, ?Hq, ?Hclick; simpl; try next_case);
    intros Hrun; try discriminate Hrun;
    injection Hrun as <-; simpl; try list_history;
    do 2 eexists; repeat split; auto.
Qed.

Lemma completed_submit_is_logged_witness :
  submit_run Codec.dumps Codec.loads (Sample.env Sample.two_items)
             (Sample.submit "Rome") Sample.after_one Sample.after_two /\
  exists s q h explanation,
    session_state Sample.after_one = Some s /\
    nth_error (questions s) (Z.to_nat (current_question s)) = Some q /\
    load_history Codec.loads Sample.after_one
      = (Return (JArr h), Sample.after_one) /\
    completion (Sample.env Sample.two_items) (completions Sample.after_one)
      = Ok explanation /\
    log_file Sample.after_two
    = Some (Codec.dumps
              (JArr (h ++ [JObj [("question", question q);
                                 ("your_answer", user_choice (Sample.submit "Rome"));
                                 ("correct_answer", correct q);
                                 ("explanation", explanation)]]))) /\
    completions Sample.after_two = S (completions Sample.after_one) /\
    requests Sample.after_two = requests Sample.after_one.
Proof.
  assert (Hsub : submit_run Codec.dumps Codec.loads (Sample.env Sample.two_items)
                            (Sample.submit "Rome") Sample.after_one
                            Sample.after_two).
  { split; [| split; [reflexivity | vm_compute; reflexivity]].
    eexists; split; [vm_compute; reflexivity |].
    unfold in_progress, total; simpl; lia. }
  split; [exact Hsub |].
  exact (completed_submit_is_logged
           Codec.dumps Codec.loads (Sample.env Sample.two_items)
           (Sample.submit "Rome") Sample.after_one Sample.after_two Hsub).
Defined.

(** ** Submits that do not reach their end *)

(** X7: when the explanation request fails in a submit, the run ends in the
    request's exception; the choice has been appended to the given answers
    and the point for a right answer counted, the index has not moved, and
    the history file is as it was. *)
Theorem failed_explanation_keeps_the_answer :
  forall jd jl env ui w s history e,
    Py.truthy (Py.or_ (environ_key env) (secrets_key env)) = true ->
    load_history jl w = (Return history, w) ->
    session_state w = Some s ->
    in_progress s ->
    submit_clicked ui = true ->
    completion env (completions w) = Error e ->
    exists q w',
      nth_error (questions s) (Z.to_nat (current_question s)) = Some q /\
      script jd jl env ui w = (Raise e, w') /\
      session_state w' = Some (taken_down s q (user_choice ui)) /\
      log_file w' = log_file w /\
      completions w' = S (completions w).
Proof.
  intros jd jl env ui w s history e Hkey Hload Hs Hin Hclick Hchat.
  destruct (index_in_range _ (questions s) _ Hin) as (q & Hq & Hnth).
  assert (Hlt : (current_question s <? Z.of_nat (List.length (questions s))) = true)
    by (apply Z.ltb_lt; apply Hin).
  exists q.
  apply load_history_value in Hload.
  unfold_script; rewrite Hkey; simpl.
  destruct Hload as [(Hfile & ->) | (content & Hfile & Hdec)];
    rewrite Hfile; rewrite ?Hdec; simpl;
    repeat (rewrite ?Hs, ?Hlt, ?Hq, ?Hclick, ?Hchat; simpl);
    unfold taken_down, set_user_answers, set_points;
    destruct (Py.eqb (user_choice ui) (correct q)); simpl;
    repeat (rewrite ?Hs, ?Hlt, ?Hq, ?Hclick, ?Hchat; simpl);
    rewrite ?Z.add_0_r;
    eexists; repeat split; auto.
Qed.

Lemma failed_explanation_keeps_the_answer_witness :
  let env := Sample.env_chat_down Sample.two_items in
  let s := new_session Sample.two_questions in
  Py.truthy (Py.or_ (environ_key env) (secrets_key env)) = true /\
  load_history Codec.loads Sample.started = (Return (JArr []), Sample.started) /\
  session_state Sample.started = Some s /\
  in_progress s /\
  submit_clicked (Sample.submit "4") = true /\
  completion env (completions Sample.started)
    = Error (ExternalError "APIConnectionError") /\
  exists q w',
    nth_error (questions s) (Z.to_nat (current_question s)) = Some q /\
    script Codec.dumps Codec.loads env (Sample.submit "4") Sample.started
      = (Raise (ExternalError "APIConnectionError"), w') /\
    session_state w' = Some (taken_down s q (user_choice (Sample.submit "4"))) /\
    log_file w' = log_file Sample.started /\
    completions w' = S (completions Sample.started).
Proof.
  intros env s.
  assert (Hin : in_progress s) by (unfold in_progress, total; simpl; lia).
  repeat (split; [first [reflexivity | exact Hin] |]).
  apply (failed_explanation_keeps_the_answer
           Codec.dumps Codec.loads env (Sample.submit "4") Sample.started s
           (JArr []) (ExternalError "APIConnectionError"));
    first [reflexivity | exact Hin].
Defined.

(** X8: when the history file holds a JSON value that is not a list, a
    submit fails with [AttributeError] at the append: the explanation has
    been requested and the answer taken down by then, the file is not
    written and the index does not move. *)
Theorem history_that_is_no_list_stops_the_submit :
  forall jd jl env ui w s history explanation,
    Py.truthy (Py.or_ (environ_key env) (secrets_key env)) = true ->
    load_history jl w = (Return history, w) ->
    (forall l, history <> JArr l) ->
    session_state w = Some s ->
    in_progress s ->
    submit_clicked ui = true ->
    completion env (completions w) = Ok explanation ->
    exists q w',
      nth_error (questions s) (Z.to_nat (current_question s)) = Some q /\
      script jd jl env ui w = (Raise AttributeError, w') /\
      session_state w' = Some (taken_down s q (user_choice ui)) /\
      log_file w' = log_file w /\
      completions w' = S (completions w).
Proof.
  intros jd jl env ui w s history explanation
         Hkey Hload Hnolist Hs Hin Hclick Hchat.
  destruct (index_in_range _ (questions s) _ Hin) as (q & Hq & Hnth).
  assert (Hlt : (current_question s <? Z.of_nat (List.length (questions s))) = true)
    by (apply Z.ltb_lt; apply Hin).
  assert (Happend : forall entry, history_append history entry = Error AttributeError).
  { intros entry; destruct history; try reflexivity.
    exfalso; apply (Hnolist items); reflexivity. }
  exists q.
  apply load_history_value in Hload.
  destruct Hload as [(Hfile & ->) | (content & Hfile & Hdec)];
    [exfalso; apply (Hnolist []); reflexivity |].
  unfold_script; rewrite Hkey; simpl.
  rewrite Hfile, Hdec; simpl;
    repeat (rewrite ?Hs, ?Hlt, ?Hq, ?Hclick, ?Hchat, ?Happend; simpl);
    unfold taken_down, set_user_answers, set_points;
    destruct (Py.eqb (user_choice ui) (correct q)); simpl;
    repeat (rewrite ?Hs, ?Hlt, ?Hq, ?Hclick, ?Hchat, ?Happend; simpl);
    rewrite ?Z.add_0_r;
    eexists; repeat split; auto.
Qed.

Lemma history_that_is_no_list_stops_the_submit_witness :
  let env := Sample.env Sample.two_items in
  let w := Sample.started_on_an_object in
  let s := new_session Sample.two_questions in
  Py.truthy (Py.or_ (environ_key env) (secrets_key env)) = true /\
  load_history Codec.loads w = (Return (JObj []), w) /\
  (forall l, JObj [] <> JArr l) /\
  session_state w = Some s /\
  in_progress s /\
  submit_clicked (Sample.submit "4") = true /\
  completion env (completions w) = Ok (JStr "Because it is.") /\
  exists q w',
    nth_error (questions s) (Z.to_nat (current_question s)) = Some q /\
    script Codec.dumps Codec.loads env (Sample.submit "4") w
      = (Raise AttributeError, w') /\
    session_state w' = Some (taken_down s q (user_choice (Sample.submit "4"))) /\
    log_file w' = log_file w /\
    completions w' = S (completions w).
Proof.
  intros env w s.
  assert (Hin : in_progress s) by (unfold in_progress, total; simpl; lia).
  assert (Hno : forall l, JObj [] <> JArr l) by (intros l; discriminate).
  repeat (split; [first [reflexivity | exact Hin | exact Hno] |]).
  apply (history_that_is_no_list_stops_the_submit
           Codec.dumps Codec.loads env (Sample.submit "4") w s
           (JObj []) (JStr "Because it is."));
    first [reflexivity | exact Hin | exact Hno].
Defined.

(** ** How far a run can move the session *)

(** X9: whatever a run over a quiz in progress does and however it ends,
    the questions stay the same, the index moves on by one at most and only
    in a run that ends in the rerun of a submit, the score goes up by one
    at most and never down, and the given answers grow by the choice
    submitted at most. *)
Theorem session_moves_forward :
  forall jd jl env ui w s o w',
    session_state w = Some s ->
    current_question s < total s ->
    script jd jl env ui w = (o, w') ->
    exists s',
      session_state w' = Some s' /\
      questions s' = questions s /\
      (current_question s' = current_question s \/
       (current_question s' = current_question s + 1 /\ o = Rerun)) /\
      points s <= points s' <= points s + 1 /\
      (user_answers s' = user_answers s \/
       user_answers s' = user_answers s ++ [user_choice ui]).
Proof.
  intros jd jl env ui w s o w' Hs Hlt.
  apply Z.ltb_lt in Hlt; unfold total in Hlt.
  unfold_script; simpl.
  repeat (rewrite ?Hs, ?Hlt; simpl; try next_case);
    intros H; injection H as <- <-; simpl;
    eexists; (split; [first [reflexivity | exact Hs] |]); simpl;
    repeat split; auto; lia.
Qed.

Lemma session_moves_forward_witness :
  let s := new_session Sample.two_questions in
  session_state Sample.started = Some s /\
  current_question s < total s /\
  script Codec.dumps Codec.loads (Sample.env Sample.two_items)
         (Sample.submit "4") Sample.started
    = (Rerun, Sample.after_one) /\
  exists s',
    session_state Sample.after_one = Some s' /\
    questions s' = questions s /\
    (current_question s' = current_question s \/
     (current_question s' = current_question s + 1 /\ @Rerun unit = Rerun)) /\
    points s <= points s' <= points s + 1 /\
    (user_answers s' = user_answers s \/
     user_answers s' = user_answers s ++ [user_choice (Sample.submit "4")]).
Proof.
  intros s.
  assert (Hlt : current_question s < total s) by reflexivity.
  assert (Hrun : script Codec.dumps Codec.loads (Sample.env Sample.two_items)
                        (Sample.submit "4") Sample.started
                 = (Rerun, Sample.after_one))
    by (vm_compute; reflexivity).
  split; [reflexivity |]. split; [exact Hlt |]. split; [exact Hrun |].
  exact (session_moves_forward
           Codec.dumps Codec.loads (Sample.env Sample.two_items)
           (Sample.submit "4") Sample.started s Rerun Sample.after_one
           eq_refl Hlt Hrun).
Defined.

(** ** The statistics at the foot of the page *)

Lemma last_three : forall (A : Type) (l : list A) a b c,
    ((l ++ [a]) ++ [b]) ++ [c] = l ++ [a; b; c].
Proof. intros; rewrite <- !app_assoc; reflexivity. Qed.

(** X10: a run that reaches the foot of the page ends it with the three
    counters: the number of questions, the score, and the wrong answers.
    While the index is within the quiz the wrong answers are the index less
    the score; in a session with one answer per question passed and no more
    points than questions passed they are not negative and add up with the
    score to the number of questions answered. *)
Theorem footer_counts_add_up :
  forall jd jl env ui w s w',
    session_state w = Some s ->
    script jd jl env ui w = (Return tt, w') ->
    exists shown wrong,
      page w' = shown ++ [Metric "Questions" [Num (total s)];
                          Metric "Correct" [Num (points s)];
                          Metric "Wrong" [Num wrong]] /\
      (current_question s <= total s ->
       wrong = current_question s - points s /\
       (consistent s -> 0 <= wrong /\ points s + wrong = current_question s)).
Proof.
  intros jd jl env ui w s w' Hs.
  unfold total, consistent.
  unfold_script; simpl.
  repeat (rewrite ?Hs; simpl; try next_case);
    intros H; try discriminate H; injection H as <-; simpl;
    eexists; eexists; (split; [apply last_three |]);
    rewrite ?Z.leb_le, ?Z.leb_gt in *; lia.
Qed.

Lemma footer_counts_add_up_witness :
  let s := submitted (new_session Sample.two_questions)
                     (nth 0 Sample.two_questions
                          (Build_Question JNull JNull [] JNull JNull))
                     (JStr "4") in
  session_state Sample.after_one = Some s /\
  script Codec.dumps Codec.loads (Sample.env Sample.two_items) Sample.idle
         Sample.after_one
    = (Return tt, Sample.second_question_shown) /\
  exists shown wrong,
    page Sample.second_question_shown
    = shown ++ [Metric "Questions" [Num (total s)];
                Metric "Correct" [Num (points s)];
                Metric "Wrong" [Num wrong]] /\
    (current_question s <= total s ->
     wrong = current_question s - points s /\
     (consistent s -> 0 <= wrong /\ points s + wrong = current_question s)).
Proof.
  intros s.
  assert (Hs : session_state Sample.after_one = Some s)
    by (vm_compute; reflexivity).
  assert (Hrun : script Codec.dumps Codec.loads (Sample.env Sample.two_items)
                        Sample.idle Sample.after_one
                 = (Return tt, Sample.second_question_shown))
    by (vm_compute; reflexivity).
  split; [exact Hs |]. split; [exact Hrun |].
  exact (footer_counts_add_up
           Codec.dumps Codec.loads (Sample.env Sample.two_items) Sample.idle
           Sample.after_one s Sample.second_question_shown Hs Hrun).
Defined.

(** ** Starting a new quiz *)

(** X11: a reset sends one trivia request and sets the session up anew with
    the questions of its response: index 0, score 0, no given answers.  The
    history file is not touched and no explanation is requested. *)
Theorem reset_takes_the_next_response :
  forall jd jl env ui w w',
    reset_run jd jl env ui w w' ->
    exists data qs,
      trivia env (requests w) = Ok data /\
      questions_of_response data = Ok qs /\
      session_state w' = Some (new_session qs) /\
      log_file w' = log_file w /\
      requests w' = S (requests w) /\
      completions w' = completions w.
Proof.
  intros jd jl env ui w w' ((s & Hs & Hfin) & Hclick & Hrun).
  revert Hrun.
  assert (Hlt : (current_question s <? Z.of_nat (List.length (questions s))) = false)
    by (apply Z.ltb_ge; apply Hfin).
  unfold_script; simpl.
  repeat (rewrite ?Hs, ?Hlt, ?Hclick; simpl; try next_case);
    intros Hrun; try discriminate Hrun;
    injection Hrun as <-; simpl;
    eexists; eexists; repeat split; first [reflexivity | assumption].
Qed.

Lemma reset_takes_the_next_response_witness :
  reset_run Codec.dumps Codec.loads (Sample.env Sample.two_items)
            Sample.new_quiz Sample.after_two Sample.restarted /\
  exists data qs,
    trivia (Sample.env Sample.two_items) (requests Sample.after_two) = Ok data /\
    questions_of_response data = Ok qs /\
    session_state Sample.restarted = Some (new_session qs) /\
    log_file Sample.restarted = log_file Sample.after_two /\
    requests Sample.restarted = S (requests Sample.after_two) /\
    completions Sample.restarted = completions Sample.after_two.
Proof.
  assert (Hreset : reset_run Codec.dumps Codec.loads (Sample.env Sample.two_items)
                             Sample.new_quiz Sample.after_two Sample.restarted).
  { split; [| split; [reflexivity | vm_compute; reflexivity]].
    eexists; split; [vm_compute; reflexivity |].
    unfold finished, total; simpl; lia. }
  split; [exact Hreset |].
  exact (reset_takes_the_next_response
           Codec.dumps Codec.loads (Sample.env Sample.two_items)
           Sample.new_quiz Sample.after_two Sample.restarted Hreset).
Defined.

(** X12: when the fetch of a reset fails, the run ends in that exception
    with the finished quiz still in the session, score and answers
    included, and the history file as it was. *)
Theorem failed_reset_keeps_the_finished_quiz :
  forall jd jl env ui w s history e,
    Py.truthy (Py.or_ (environ_key env) (secrets_key env)) = true ->
    load_history jl w = (Return history, w) ->
    session_state w = Some s ->
    finished s ->
    0 < total s ->
    0 <= points s <= total s ->
    new_quiz_clicked ui = true ->
    (let* data := trivia env (requests w) in questions_of_response data)
      = Error e ->
    exists w',
      script jd jl env ui w = (Raise e, w') /\
      session_state w' = Some s /\
      log_file w' = log_file w /\
      requests w' = S (requests w).
Proof.
  intros jd jl env ui w s history e Hkey Hload Hs Hfin Hlen Hpts Hclick Hfetch.
  destruct (percentage_in_range (points s) (total s) Hpts Hlen)
    as (p & v & Hp & _).
  assert (Hlt : (current_question s <? Z.of_nat (List.length (questions s))) = false)
    by (apply Z.ltb_ge; apply Hfin).
  unfold total in Hp.
  apply load_history_value in Hload.
  unfold_script; rewrite Hkey; simpl.
  destruct Hload as [(Hfile & ->) | (content & Hfile & Hdec)];
    rewrite Hfile; rewrite ?Hdec; simpl;
    repeat (rewrite ?Hs, ?Hlt, ?Hp, ?Hclick; simpl);
    destruct (trivia env (requests w)) as [data | e0]; simpl in Hfetch |- *;
    rewrite ?Hfetch; simpl;
    try (injection Hfetch as ->);
    eexists; repeat split; auto.
Qed.

Lemma failed_reset_keeps_the_finished_quiz_witness :
  let env := Sample.env_trivia_down in
  let w := Sample.two_of_five_done in
  let s := {| questions := Sample.five_questions; current_question := 5;
              points := 2;
              user_answers := [JStr "4"; JStr "Rome"; JStr "4"; JStr "Rome";
                               JStr "3"] |} in
  Py.truthy (Py.or_ (environ_key env) (secrets_key env)) = true /\
  load_history Codec.loads w = (Return (JArr []), w) /\
  session_state w = Some s /\
  finished s /\
  0 < total s /\
  0 <= points s <= total s /\
  new_quiz_clicked Sample.new_quiz = true /\
  (let* data := trivia env (requests w) in questions_of_response data)
    = Error (ExternalError "ConnectionError") /\
  exists w',
    script Codec.dumps Codec.loads env Sample.new_quiz w
      = (Raise (ExternalError "ConnectionError"), w') /\
    session_state w' = Some s /\
    log_file w' = log_file w /\
    requests w' = S (requests w).
Proof.
  intros env w s.
  assert (Hfin : finished s) by (unfold finished, total; simpl; lia).
  assert (Hlen : 0 < total s) by reflexivity.
  assert (Hpts : 0 <= points s <= total s) by (vm_compute; split; discriminate).
  repeat (split; [first [reflexivity | exact Hfin | exact Hlen | exact Hpts] |]).
  apply (failed_reset_keeps_the_finished_quiz
           Codec.dumps Codec.loads env Sample.new_quiz w s (JArr [])
           (ExternalError "ConnectionError"));
    first [reflexivity | exact Hfin | exact Hlen | exact Hpts].
Defined.

(** ** A quiz without questions *)

(** X13: a session that was set up with no question cannot be left: every
    run over it, whatever is clicked, raises [ZeroDivisionError] on the
    results page before the button that starts a new quiz is offered, and
    leaves the session as it is. *)
Theorem a_quiz_without_questions_is_stuck :
  forall jd jl env ui w s history,
    Py.truthy (Py.or_ (environ_key env) (secrets_key env)) = true ->
    load_history jl w = (Return history, w) ->
    session_state w = Some s ->
    questions s = [] ->
    0 <= current_question s ->
    exists w',
      script jd jl env ui w = (Raise ZeroDivisionError, w') /\
      session_state w' = Some s /\
      log_file w' = log_file w /\
      requests w' = requests w /\
      ~ In (Button "Start New Quiz") (skipn (List.length (page w)) (page w')).
Proof.
  intros jd jl env ui w s history Hkey Hload Hs Hnone Hcur.
  assert (Hlt : (current_question s <? Z.of_nat (List.length (questions s))) = false)
    by (rewrite Hnone; apply Z.ltb_ge; simpl; lia).
  assert (Hdiv : percentage (points s) (Z.of_nat (List.length (questions s)))
                 = Error ZeroDivisionError)
    by (rewrite Hnone; unfold percentage, Py.true_div; simpl;
        destruct (points s); reflexivity).
  apply load_history_value in Hload.
  unfold_script; rewrite Hkey; simpl.
  destruct Hload as [(Hfile & ->) | (content & Hfile & Hdec)];
    rewrite Hfile; rewrite ?Hdec; simpl;
    repeat (rewrite ?Hs, ?Hlt, ?Hdiv; simpl);
    eexists; (split; [reflexivity |]); simpl;
    (split; [first [reflexivity | exact Hs] |]);
    (split; [first [reflexivity | assumption] |]);
    (split; [reflexivity |]);
    rewrite <- !app_assoc, skipn_app, skipn_all, Nat.sub_diag; simpl;
    intuition discriminate.
Qed.

Lemma a_quiz_without_questions_is_stuck_witness :
  let env := Sample.env Sample.two_items in
  let w := Sample.empty_session in
  Py.truthy (Py.or_ (environ_key env) (secrets_key env)) = true /\
  load_history Codec.loads w = (Return (JArr []), w) /\
  session_state w = Some (new_session []) /\
  questions (new_session []) = [] /\
  0 <= current_question (new_session []) /\
  exists w',
    script Codec.dumps Codec.loads env Sample.new_quiz w
      = (Raise ZeroDivisionError, w') /\
    session_state w' = Some (new_session []) /\
    log_file w' = log_file w /\
    requests w' = requests w /\
    ~ In (Button "Start New Quiz") (skipn (List.length (page w)) (page w')).
Proof.
  intros env w.
  repeat (split; [first [reflexivity | simpl; lia] |]).
  apply (a_quiz_without_questions_is_stuck
           Codec.dumps Codec.loads env Sample.new_quiz w
           (new_session []) (JArr []));
    first [reflexivity | simpl; lia].
Defined.

(** ** Scores at the two ends *)

Lemma div_eucl_multiple : forall a b,
    0 < b -> Z.div_eucl (a * b) b = (a, 0).
Proof.
  intros a b Hb.
  pose proof (Z.div_mul a b) as Hd; pose proof (Z.mod_mul a b) as Hm.
  unfold Z.div, Z.modulo in Hd, Hm.
  destruct (Z.div_eucl (a * b) b) as (q, r); simpl in Hd, Hm.
  rewrite Hd, Hm by lia; reflexivity.
Qed.

(** A number divided by itself is the [float] 1. *)
Lemma div_by_itself : forall p,
    SFdiv prec emax (S754_finite false p 0) (S754_finite false p 0)
    = S754_finite false 4503599627370496 (-52).
Proof.
  intros p; unfold SFdiv, SFdiv_core_binary.
  replace (Zdigits2 (Z.pos p) + 0 - (Zdigits2 (Z.pos p) + 0)) with 0 by lia.
  change (Z.min (fexp prec emax 0) (0 - 0)) with (-53).
  change (0 - 0 - -53) with 53.
  cbv iota beta zeta.
  rewrite Z.shiftl_mul_pow2 by lia.
  replace (Z.pos p * 2 ^ 53) with (2 ^ 53 * Z.pos p) by lia.
  rewrite div_eucl_multiple by lia.
  rewrite new_location_zero.
  vm_compute; reflexivity.
Qed.

(** X14: whatever the number of questions, a score equal to it gives the
    percentage 100 exactly and no score the percentage 0, shown as 100 and
    as 0. *)
Theorem full_and_empty_scores :
  forall len,
    0 < len ->
    percentage len len = Ok (Py.float_of_int 100) /\
    Py.round_half_even (Py.float_of_int 100) = Some 100 /\
    percentage 0 len = Ok (S754_zero false) /\
    Py.round_half_even (S754_zero false) = Some 0.
Proof.
  intros len Hlen; destruct len as [| p | p]; try lia.
  split; [| split; [vm_compute; reflexivity | split; reflexivity]].
  unfold percentage, Py.true_div; rewrite div_by_itself.
  vm_compute; reflexivity.
Qed.

Lemma full_and_empty_scores_witness :
  0 < 7 /\
  percentage 7 7 = Ok (Py.float_of_int 100) /\
  Py.round_half_even (Py.float_of_int 100) = Some 100 /\
  percentage 0 7 = Ok (S754_zero false) /\
  Py.round_half_even (S754_zero false) = Some 0.
Proof.
  split; [lia |].
  apply (full_and_empty_scores 7); lia.
Defined.

(** ** From one run to the next *)

Lemma submit_run_file : forall jd jl env ui w w',
    submit_run jd jl env ui w w' ->
    exists s q h explanation,
      session_state w = Some s /\
      nth_error (questions s) (Z.to_nat (current_question s)) = Some q /\
      load_history jl w = (Return (JArr h), w) /\
      completion env (completions w) = Ok explanation /\
      log_file w'
      = Some (jd (JArr (h ++ [history_entry q (user_choice ui) explanation]))).
Proof.
  intros jd jl env ui w w' ((s & Hs & Hin) & Hclick & Hrun).
  destruct (index_in_range _ (questions s) _ Hin) as (q & Hq & Hnth).
  exists s, q.
  revert Hrun.
  assert (Hlt : (current_question s <? Z.of_nat (List.length (questions s))) = true)
    by (apply Z.ltb_lt; apply Hin).
  unfold_script; simpl.
  repeat (rewrite ?Hs, ?Hlt, ?Hq, ?Hclick; simpl; try next_case);
    intros Hrun; try discriminate Hrun;
    injection Hrun as <-; simpl; try list_history;
    do 2 eexists; repeat split; auto.
Qed.

(** X15: after a submit operation, a run that starts on the file it wrote,
    the codec reading back what was written, loads the history that the
    submit had loaded followed by the new entry. *)
Theorem submitted_entry_is_read_back :
  forall jd jl env ui w w' s q h explanation,
    submit_run jd jl env ui w w' ->
    session_state w = Some s ->
    nth_error (questions s) (Z.to_nat (current_question s)) = Some q ->
    load_history jl w = (Return (JArr h), w) ->
    completion env (completions w) = Ok explanation ->
    jl (jd (JArr (h ++ [history_entry q (user_choice ui) explanation])))
      = Some (JArr (h ++ [history_entry q (user_choice ui) explanation])) ->
    load_history jl w'
      = (Return (JArr (h ++ [history_entry q (user_choice ui) explanation])), w').
Proof.
  intros jd jl env ui w w' s q h explanation Hsub Hs Hq Hload Hchat Hcodec.
  destruct (submit_run_file jd jl env ui w w' Hsub)
    as (s0 & q0 & h0 & x0 & Hs0 & Hq0 & Hload0 & Hchat0 & Hfile).
  rewrite Hs in Hs0; injection Hs0 as <-.
  rewrite Hq in Hq0; injection Hq0 as <-.
  rewrite Hload in Hload0; injection Hload0 as <-.
  rewrite Hchat in Hchat0; injection Hchat0 as <-.
  unfold load_history, bind, get, ret.
  rewrite Hfile, Hcodec; reflexivity.
Qed.

Lemma submitted_entry_is_read_back_witness :
  let env := Sample.env Sample.two_items in
  let ui := Sample.submit "4" in
  let s := new_session Sample.two_questions in
  let q := nth 0 Sample.two_questions (Build_Question JNull JNull [] JNull JNull) in
  let doc := JArr ([] ++ [history_entry q (user_choice ui) (JStr "Because it is.")]) in
  submit_run Codec.dumps Codec.loads env ui Sample.started Sample.after_one /\
  session_state Sample.started = Some s /\
  nth_error (questions s) (Z.to_nat (current_question s)) = Some q /\
  load_history Codec.loads Sample.started = (Return (JArr []), Sample.started) /\
  completion env (completions Sample.started) = Ok (JStr "Because it is.") /\
  Codec.loads (Codec.dumps doc) = Some doc /\
  load_history Codec.loads Sample.after_one = (Return doc, Sample.after_one).
Proof.
  intros env ui s q doc.
  assert (Hsub : submit_run Codec.dumps Codec.loads env ui
                            Sample.started Sample.after_one).
  { split; [| split; [reflexivity | vm_compute; reflexivity]].
    exists s; split; [reflexivity |].
    unfold in_progress, total; simpl; lia. }
  assert (Hcodec : Codec.loads (Codec.dumps doc) = Some doc)
    by (vm_compute; reflexivity).
  split; [exact Hsub |].
  repeat (split; [first [reflexivity | exact Hcodec] |]).
  exact (submitted_entry_is_read_back
           Codec.dumps Codec.loads env ui Sample.started Sample.after_one
           s q [] (JStr "Because it is.")
           Hsub eq_refl eq_refl eq_refl eq_refl Hcodec).
Defined.

(** ** What the score counts *)






